(** * Apex-Trade: the backtesting engine and the realised-P&L accountant

    A shallow embedding of
      - [backend_fastapi/app/backtesting.py] (class [BacktestingEngine]:
        [run_backtest], [_get_historical_data], [_prepare_features],
        [_generate_signal], [_execute_trade], [_calculate_performance]);
      - [backend_fastapi/app/routes/metrics.py]
        ([_calculate_realised_pnl_and_hold_times]),
    followed by the properties of the specification stated over it.

    Numbers.  The Python code computes with IEEE doubles (pandas / numpy
    scalars).  Here a double is an exact rational or one of the three special
    values the pandas code relies on: +inf, -inf and NaN.  Rounding, overflow
    and the sign of zero are not modelled; finite results are kept in lowest
    terms.  Division follows numpy: x/0 is an infinity (NaN for 0/0), never an
    exception.  Every comparison with NaN is false.

    Two divisions of the engine have no numpy operand: both operands are
    built-in Python floats, and Python raises ZeroDivisionError on a zero
    divisor.  The model raises there too (see [_calculate_performance] and
    [run_backtest]). *)

From Stdlib Require Import QArith Qminmax Qabs Lqa ZArith List String Ascii.
From stdpp Require Import gmap strings list.

Open Scope Q_scope.

(** ** Rational helpers *)

Definition Qlt_bool (x y : Q) : bool := negb (Qle_bool y x).

Lemma Qlt_bool_iff x y : Qlt_bool x y = true <-> x < y.
Proof.
  unfold Qlt_bool. rewrite negb_true_iff.
  destruct (Qle_bool y x) eqn:E.
  - apply Qle_bool_iff in E. split; [discriminate | lra].
  - split; [intros _ | reflexivity].
    destruct (Qlt_le_dec x y) as [H | H]; [exact H |].
    apply Qle_bool_iff in H. congruence.
Qed.

Lemma Qlt_bool_false x y : Qlt_bool x y = false <-> y <= x.
Proof.
  unfold Qlt_bool. rewrite negb_false_iff. apply Qle_bool_iff.
Qed.

Lemma Qeq_bool_false x y : Qeq_bool x y = false <-> ~ x == y.
Proof.
  split.
  - intros E H. apply Qeq_bool_iff in H. congruence.
  - intros H. destruct (Qeq_bool x y) eqn:E; [| reflexivity].
    apply Qeq_bool_iff in E. contradiction.
Qed.

(** Square root of a non-negative rational, exact on squares of rationals
    whose denominator divides the argument's, and otherwise rounded down to
    a multiple of 2^-53 / denominator. *)
Definition Qsqrt (q : Q) : Q :=
  let d := Z.pos (Qden q) in
  Qred (Z.sqrt (Qnum q * d * 2 ^ 106) # (Qden q * 2 ^ 53)%positive).

(** ** Doubles *)

Inductive float : Type :=
| Fin (q : Q)
| PInf
| NInf
| NaN.

Definition fin (q : Q) : float := Fin (Qred q).

Definition of_nat (n : nat) : float := Fin (inject_Z (Z.of_nat n)).

Definition is_nan (x : float) : bool :=
  match x with NaN => true | _ => false end.

Definition is_finite (x : float) : Prop :=
  match x with Fin _ => True | _ => False end.

Definition fneg (x : float) : float :=
  match x with
  | Fin q => fin (- q)
  | PInf => NInf
  | NInf => PInf
  | NaN => NaN
  end.

Definition fadd (x y : float) : float :=
  match x, y with
  | NaN, _ | _, NaN => NaN
  | Fin a, Fin b => fin (a + b)
  | PInf, NInf | NInf, PInf => NaN
  | PInf, _ | _, PInf => PInf
  | NInf, _ | _, NInf => NInf
  end.

Definition fsub (x y : float) : float := fadd x (fneg y).

(** The product of an infinity with a finite factor; 0 * inf is NaN. *)
Definition inf_times (positive : bool) (q : Q) : float :=
  if Qeq_bool q 0 then NaN
  else if Bool.eqb positive (Qlt_bool 0 q) then PInf else NInf.

Definition fmul (x y : float) : float :=
  match x, y with
  | NaN, _ | _, NaN => NaN
  | Fin a, Fin b => fin (a * b)
  | PInf, Fin b | Fin b, PInf => inf_times true b
  | NInf, Fin b | Fin b, NInf => inf_times false b
  | PInf, PInf | NInf, NInf => PInf
  | PInf, NInf | NInf, PInf => NInf
  end.

Definition fdiv (x y : float) : float :=
  match x, y with
  | NaN, _ | _, NaN => NaN
  | Fin a, Fin b =>
      if Qeq_bool b 0 then
        (if Qeq_bool a 0 then NaN else if Qlt_bool 0 a then PInf else NInf)
      else fin (a / b)
  | Fin _, (PInf | NInf) => Fin 0
  | (PInf | NInf), (PInf | NInf) => NaN
  | PInf, Fin b => if Qle_bool 0 b then PInf else NInf
  | NInf, Fin b => if Qle_bool 0 b then NInf else PInf
  end.

Definition fsqrt (x : float) : float :=
  match x with
  | Fin q => if Qlt_bool q 0 then NaN else Fin (Qsqrt q)
  | PInf => PInf
  | NInf | NaN => NaN
  end.

Definition fltb (x y : float) : bool :=
  match x, y with
  | NaN, _ | _, NaN => false
  | Fin a, Fin b => Qlt_bool a b
  | NInf, (Fin _ | PInf) => true
  | Fin _, PInf => true
  | _, _ => false
  end.

Definition fleb (x y : float) : bool :=
  match x, y with
  | NaN, _ | _, NaN => false
  | Fin a, Fin b => Qle_bool a b
  | NInf, _ => true
  | _, PInf => true
  | _, _ => false
  end.

Definition fgtb (x y : float) : bool := fltb y x.
Definition fgeb (x y : float) : bool := fleb y x.

(** Python's [max(a, b)]: the first argument unless the second is larger. *)
Definition fmax (x y : float) : float := if fgtb y x then y else x.

Definition fabs (x : float) : float :=
  match x with
  | Fin q => Fin (Qabs q)
  | PInf | NInf => PInf
  | NaN => NaN
  end.

Definition is_zero (x : float) : bool :=
  match x with Fin q => Qeq_bool q 0 | _ => false end.

(** [x == y] as a test. *)
Definition feqb (x y : float) : bool :=
  match x, y with
  | Fin a, Fin b => Qeq_bool a b
  | PInf, PInf | NInf, NInf => true
  | _, _ => false
  end.

(** Python's [x == y] on doubles: equal numbers; NaN equals nothing. *)
Definition feq (x y : float) : Prop :=
  match x, y with
  | Fin a, Fin b => a == b
  | PInf, PInf | NInf, NInf => True
  | _, _ => False
  end.

Definition fsum (l : list float) : float := fold_left fadd l (Fin 0).

Declare Scope float_scope.
Delimit Scope float_scope with fl.
Bind Scope float_scope with float.
Infix "+" := fadd : float_scope.
Infix "-" := fsub : float_scope.
Infix "*" := fmul : float_scope.
Infix "/" := fdiv : float_scope.
Infix "<?" := fltb : float_scope.
Infix "<=?" := fleb : float_scope.
Infix ">?" := fgtb (at level 70) : float_scope.
Infix ">=?" := fgeb (at level 70) : float_scope.
Notation "- x" := (fneg x) : float_scope.
Infix "=f=" := feq (at level 70, no associativity).

Example div_by_zero : (Fin 3 / Fin 0 = PInf /\ Fin 0 / Fin 0 = NaN)%fl.
Proof. split; reflexivity. Qed.

(** ** Series and data frames (the part of pandas the engine uses)

    A data frame is a set of named columns of equal length.  A column is a
    list of doubles; a missing value is NaN. *)

Record DataFrame : Type := {
  nrows : nat;
  columns : gmap string (list float)
}.

(** [pd.DataFrame(list_of_dicts)]: the columns are the keys that occur in
    some row; a row without a key has NaN in that column. *)
Definition column_of (data : list (gmap string Q)) (c : string) : list float :=
  (fun k : gmap string Q =>
     match k !! c with Some q => Fin q | None => NaN end) <$> data.

Definition keys_of (data : list (gmap string Q)) : gset string :=
  ⋃ ((fun k : gmap string Q => dom k) <$> data).

Definition DataFrame_of (data : list (gmap string Q)) : DataFrame :=
  {| nrows := length data;
     columns := set_to_map (fun c => (c, column_of data c)) (keys_of data) |}.

(** [df[c] = s] *)
Definition setitem (c : string) (s : list float) (df : DataFrame) : DataFrame :=
  {| nrows := nrows df; columns := <[c := s]> (columns df) |}.

(** [df.iloc[:n]] *)
Definition iloc_prefix (n : nat) (df : DataFrame) : DataFrame :=
  {| nrows := Nat.min n (nrows df); columns := take n <$> columns df |}.

(** [df.iloc[-1]]: the last row as a mapping from column to value; an
    IndexError ([None]) on an empty frame. *)
Definition iloc_last (df : DataFrame) : option (gmap string float) :=
  match nrows df with
  | O => None
  | S n => Some ((fun col : list float => nth n col NaN) <$> columns df)
  end.

(** [s.diff()] *)
Definition diff (s : list float) : list float :=
  match s with
  | [] => []
  | _ :: t => NaN :: zip_with fsub t s
  end.

(** [s.where(cond, other)] *)
Definition where_ (cond : float -> bool) (other : float) (s : list float)
  : list float :=
  (fun x => if cond x then x else other) <$> s.

(** [s.rolling(window=w).agg()]: NaN until [w] observations are there, then
    the aggregate of the last [w] values. *)
Definition rolling (w : nat) (agg : list float -> float) (s : list float)
  : list float :=
  (fun i => if (w <=? i + 1)%nat then agg (take w (drop (i + 1 - w) s)) else NaN)
    <$> seq 0 (length s).

Definition mean (win : list float) : float :=
  (fsum win / of_nat (length win))%fl.

(** Sample standard deviation (pandas' default, ddof = 1). *)
Definition std (win : list float) : float :=
  let m := mean win in
  fsqrt (fsum ((fun x => (x - m) * (x - m))%fl <$> win)
         / of_nat (length win - 1))%fl.

(** Population standard deviation (numpy's default, ddof = 0). *)
Definition np_std (l : list float) : float :=
  let m := mean l in
  fsqrt (fsum ((fun x => (x - m) * (x - m))%fl <$> l) / of_nat (length l))%fl.

(** [s.ewm(span=n, adjust=False).mean()], the way pandas computes it, with
    a = 2 / (n + 1).  The average starts at the first value.  An observation
    [cur] moves it to (w * avg + a * cur) / (w + a), where the weight [w] of
    the old average is 1 - a, multiplied by 1 - a once more for every missing
    value since the last observation (when [cur] equals the average, the
    average is kept as it is).  A missing value (NaN) leaves the average
    where it is.  Before the first observation the result is NaN. *)
Fixpoint ewm_from (alpha weighted old_wt : float) (s : list float) : list float :=
  match s with
  | [] => []
  | cur :: t =>
      if is_nan weighted then cur :: ewm_from alpha cur old_wt t
      else
        let old_wt := (old_wt * (Fin 1 - alpha))%fl in
        if is_nan cur then weighted :: ewm_from alpha weighted old_wt t
        else
          let weighted :=
            if feqb weighted cur then weighted
            else ((old_wt * weighted + alpha * cur) / (old_wt + alpha))%fl in
          weighted :: ewm_from alpha weighted (Fin 1) t
  end.

Definition ewm_mean (span : nat) (s : list float) : list float :=
  match s with
  | [] => []
  | x :: t => x :: ewm_from (Fin 2 / (of_nat span + Fin 1))%fl x (Fin 1) t
  end.

(** [s.pct_change(periods=p)] *)
Definition pct_change (p : nat) (s : list float) : list float :=
  take (length s)
    (replicate p NaN ++ zip_with (fun cur old => (cur / old - Fin 1)%fl) (drop p s) s).

(** [fillna(method='bfill')] on one column: a NaN takes the next value below
    it that is not NaN, and stays NaN when there is none. *)
Fixpoint bfill (s : list float) : list float :=
  match s with
  | [] => []
  | x :: t =>
      let t' := bfill t in
      (if is_nan x then hd NaN t' else x) :: t'
  end.

Definition fillna_bfill (df : DataFrame) : DataFrame :=
  {| nrows := nrows df; columns := bfill <$> columns df |}.

(** * backtesting.py *)

Module Backtesting.

Open Scope string_scope.

(** ** Records of the engine (Python dicts with a fixed set of keys) *)

Record SignalData : Type := {
  sd_timestamp : float;
  sd_symbol : string;
  sd_signal : string;
  sd_price : float
}.

Record Position : Type := {
  entry_price : float;
  size : float;
  stop_loss : float;
  take_profit : float;
  entry_time : float
}.

(** An entry of [self.trades].  The keys [pnl], [pnl_pct] and [reason] exist
    only in the records of closing trades. *)
Record TradeRecord : Type := {
  timestamp : float;
  symbol : string;
  side : string;
  price : float;
  quantity : float;
  value : float;
  pnl : option float;
  pnl_pct : option float;
  balance_before : float;
  balance_after : float;
  status : string;
  reason : option string
}.

Record PerformanceMetrics : Type := {
  total_trades : nat;
  winning_trades : nat;
  losing_trades : nat;
  win_rate : float;
  profit_factor : float;
  average_profit : float;
  average_loss : float;
  max_drawdown : float;
  sharpe_ratio : float
}.

(** The attributes of a [BacktestingEngine]. *)
Record Engine : Type := {
  trades : list TradeRecord;
  signals : list SignalData;
  performance_metrics : option PerformanceMetrics;
  initial_balance : float;
  current_balance : float;
  position : option Position;
  position_size : float;
  risk_per_trade : float;
  stop_loss_pct : float;
  take_profit_pct : float
}.

(** [BacktestingEngine.__init__] *)
Definition init : Engine :=
  {| trades := []; signals := []; performance_metrics := None;
     initial_balance := Fin 10000; current_balance := Fin 0;
     position := None; position_size := Fin 0;
     risk_per_trade := Fin 0.02; stop_loss_pct := Fin 0.02;
     take_profit_pct := Fin 0.04 |}.

(** ** [_get_historical_data]

    [klines] is what [binance_service.get_klines] answers (the empty list
    when it raises); a date is given by its timestamp in milliseconds.  A
    kline without [openTime] raises a KeyError inside the filter, and the
    handler returns the empty list. *)
Definition _get_historical_data (klines : list (gmap string Q))
    (start_date end_date : option Z) : list (gmap string Q) :=
  match start_date, end_date with
  | None, None => klines
  | _, _ =>
      let start_timestamp := default 0%Z start_date in
      let in_range (t : Q) : bool :=
        Qle_bool (inject_Z start_timestamp) t &&
        match end_date with
        | Some e => Qle_bool t (inject_Z e)
        | None => true
        end in
      match mapM (fun k : gmap string Q => k !! "openTime") klines with
      | None => []
      | Some _ =>
          List.filter
            (fun k : gmap string Q =>
               match k !! "openTime" with Some t => in_range t | None => false end)
            klines
      end
  end.

(** ** [_prepare_features] *)

(** The RSI statements, as functions of the [close] column. *)
Definition gain (close : list float) : list float :=
  where_ (fun d => d >? Fin 0)%fl (Fin 0) (diff close).

Definition loss (close : list float) : list float :=
  fneg <$> where_ (fun d => d <? Fin 0)%fl (Fin 0) (diff close).

Definition avg_gain (close : list float) : list float :=
  rolling 14 mean (gain close).

Definition avg_loss (close : list float) : list float :=
  rolling 14 mean (loss close).

Definition rsi_of_rs (rs : float) : float :=
  (Fin 100 - Fin 100 / (Fin 1 + rs))%fl.

Definition rsi (close : list float) : list float :=
  rsi_of_rs <$> zip_with fdiv (avg_gain close) (avg_loss close).

(** The first statement reads [df['close']]; without that column it raises
    and the handler returns the frame as it came. *)
Definition _prepare_features (df : DataFrame) : DataFrame :=
  match columns df !! "close" with
  | None => df
  | Some close =>
      (* RSI *)
      let df := setitem "rsi" (rsi close) df in
      (* Moving averages *)
      let df := setitem "sma_20" (rolling 20 mean close) df in
      let df := setitem "sma_50" (rolling 50 mean close) df in
      let df := setitem "sma_200" (rolling 200 mean close) df in
      (* MACD *)
      let ema_12 := ewm_mean 12 close in
      let ema_26 := ewm_mean 26 close in
      let df := setitem "ema_12" ema_12 df in
      let df := setitem "ema_26" ema_26 df in
      let macd := zip_with fsub ema_12 ema_26 in
      let df := setitem "macd" macd df in
      let macd_signal := ewm_mean 9 macd in
      let df := setitem "macd_signal" macd_signal df in
      let df := setitem "macd_hist" (zip_with fsub macd macd_signal) df in
      (* Bollinger bands *)
      let bb_middle := rolling 20 mean close in
      let bb_std := rolling 20 std close in
      let df := setitem "bb_middle" bb_middle df in
      let df := setitem "bb_std" bb_std df in
      let df := setitem "bb_upper"
                  (zip_with (fun m s => m + Fin 2 * s)%fl bb_middle bb_std) df in
      let df := setitem "bb_lower"
                  (zip_with (fun m s => m - Fin 2 * s)%fl bb_middle bb_std) df in
      (* Momentum *)
      let df := setitem "momentum"
                  ((fun x => x * Fin 100)%fl <$> pct_change 10 close) df in
      (* Volatility *)
      let df := setitem "volatility"
                  ((fun x => x * Fin 100)%fl
                     <$> zip_with fdiv (rolling 20 std close) (rolling 20 mean close))
                  df in
      (* Fill NaN values *)
      fillna_bfill df
  end.

(** ** [_generate_signal]

    [latest[c]] raises a KeyError for a missing column; [and] evaluates its
    right operand only when the left one is true; an [elif] condition is
    evaluated only when the [if] condition is false. *)
Definition cmp (op : float -> float -> bool) (x y : option float) : option bool :=
  a ← x; b ← y; Some (op a b).

Definition and_ (l r : option bool) : option bool :=
  l ≫= fun a : bool => if a then r else Some false.

Definition if_elif (c_if c_elif : option bool) (prev : string) : option string :=
  c_if ≫= fun a : bool =>
  if a then Some "BUY"
  else c_elif ≫= fun b : bool => Some (if b then "SELL" else prev).

Definition rsi_rule (latest : gmap string float) : string -> option string :=
  if_elif (cmp fltb (latest !! "rsi") (Some (Fin 30)))
          (cmp fgtb (latest !! "rsi") (Some (Fin 70))).

Definition sma_rule (latest : gmap string float) : string -> option string :=
  if_elif (and_ (cmp fgtb (latest !! "sma_20") (latest !! "sma_50"))
                (cmp fgtb (latest !! "close") (latest !! "sma_20")))
          (and_ (cmp fltb (latest !! "sma_20") (latest !! "sma_50"))
                (cmp fltb (latest !! "close") (latest !! "sma_20"))).

Definition macd_rule (latest : gmap string float) : string -> option string :=
  if_elif (and_ (cmp fgtb (latest !! "macd") (latest !! "macd_signal"))
                (cmp fgtb (latest !! "macd_hist") (Some (Fin 0))))
          (and_ (cmp fltb (latest !! "macd") (latest !! "macd_signal"))
                (cmp fltb (latest !! "macd_hist") (Some (Fin 0)))).

Definition bb_rule (latest : gmap string float) : string -> option string :=
  if_elif (cmp fltb (latest !! "close") (latest !! "bb_lower"))
          (cmp fgtb (latest !! "close") (latest !! "bb_upper")).

(** The body of the [try]; [None] is a raised exception. *)
Definition signal_of_row (latest : gmap string float) : option string :=
  let signal := "HOLD" in
  signal ← rsi_rule latest signal;
  signal ← sma_rule latest signal;
  signal ← macd_rule latest signal;
  signal ← bb_rule latest signal;
  Some signal.

Definition _generate_signal (df : DataFrame) (symbol : string) : string :=
  default "HOLD" (latest ← iloc_last df; signal_of_row latest).

(** ** [_execute_trade] *)

(** The three closing branches run the same statements and differ only in
    the [reason] they record: book the pnl at [current_price], append the
    SELL record, drop the position. *)
Definition close_position (self : Engine) (signal_data : SignalData)
    (pos : Position) (why : string) : Engine :=
  let current_price := sd_price signal_data in
  let pnl := ((current_price - entry_price pos) * size pos)%fl in
  let current_balance := (current_balance self + pnl)%fl in
  {| trades :=
       trades self ++
       [ {| timestamp := sd_timestamp signal_data;
            symbol := sd_symbol signal_data;
            side := "SELL";
            price := current_price;
            quantity := size pos;
            value := (current_price * size pos)%fl;
            pnl := Some pnl;
            pnl_pct := Some ((current_price / entry_price pos - Fin 1) * Fin 100)%fl;
            balance_before := (current_balance - pnl)%fl;
            balance_after := current_balance;
            status := "CLOSED";
            reason := Some why |} ];
     signals := signals self;
     performance_metrics := performance_metrics self;
     initial_balance := initial_balance self;
     current_balance := current_balance;
     position := None;
     position_size := Fin 0;
     risk_per_trade := risk_per_trade self;
     stop_loss_pct := stop_loss_pct self;
     take_profit_pct := take_profit_pct self |}.

Definition open_position (self : Engine) (signal_data : SignalData) : Engine :=
  let current_price := sd_price signal_data in
  let timestamp := sd_timestamp signal_data in
  let risk_amount := (current_balance self * risk_per_trade self)%fl in
  let position_size := (risk_amount / current_price)%fl in
  let stop_loss := (current_price * (Fin 1 - stop_loss_pct self))%fl in
  let take_profit := (current_price * (Fin 1 + take_profit_pct self))%fl in
  {| trades :=
       trades self ++
       [ {| timestamp := timestamp;
            symbol := sd_symbol signal_data;
            side := "BUY";
            price := current_price;
            quantity := position_size;
            value := (current_price * position_size)%fl;
            pnl := None;
            pnl_pct := None;
            balance_before := current_balance self;
            balance_after := current_balance self;
            status := "OPEN";
            reason := None |} ];
     signals := signals self;
     performance_metrics := performance_metrics self;
     initial_balance := initial_balance self;
     current_balance := current_balance self;
     position :=
       Some {| entry_price := current_price;
               size := position_size;
               stop_loss := stop_loss;
               take_profit := take_profit;
               entry_time := timestamp |};
     position_size := position_size;
     risk_per_trade := risk_per_trade self;
     stop_loss_pct := stop_loss_pct self;
     take_profit_pct := take_profit_pct self |}.

Definition _execute_trade (self : Engine) (signal_data : SignalData)
    (df : DataFrame) : Engine :=
  let current_price := sd_price signal_data in
  let signal := sd_signal signal_data in
  match position self with
  | None =>
      (* If no position and signal is BUY *)
      if String.eqb signal "BUY" then open_position self signal_data else self
  | Some pos =>
      (* Check for stop loss or take profit *)
      if (current_price <=? stop_loss pos)%fl then
        close_position self signal_data pos "STOP_LOSS"
      else if (current_price >=? take_profit pos)%fl then
        close_position self signal_data pos "TAKE_PROFIT"
      (* Check for sell signal *)
      else if String.eqb signal "SELL" then
        close_position self signal_data pos "SIGNAL"
      else self
  end.

(** ** [_calculate_performance]

    The first pass of the drawdown loop computes
    [(max_balance - balance) / max_balance] with both equal to
    [self.initial_balance], a Python float: with an initial balance of zero it
    raises ZeroDivisionError, and the handler stores [{}] ([None] here).  The
    later passes and the other divisions have a numpy operand or a divisor
    that was tested to be positive. *)

Definition get_pnl (t : TradeRecord) : float := default (Fin 0) (pnl t).

(** The drawdown loop: the running maximum and the largest drawdown. *)
Definition drawdown_step (acc : float * float) (balance : float) : float * float :=
  let max_balance := fmax (fst acc) balance in
  let drawdown := ((max_balance - balance) / max_balance)%fl in
  (max_balance, fmax (snd acc) drawdown).

Definition _calculate_performance (self : Engine) : Engine :=
  let completed_trades :=
    List.filter (fun t => String.eqb (status t) "CLOSED") (trades self) in
  let metrics :=
    match completed_trades with
    | [] =>
        Some
        {| total_trades := 0; winning_trades := 0; losing_trades := 0;
           win_rate := Fin 0; profit_factor := Fin 0; average_profit := Fin 0;
           average_loss := Fin 0; max_drawdown := Fin 0; sharpe_ratio := Fin 0 |}
    | _ =>
        if is_zero (initial_balance self) then None else
        let total_trades := length completed_trades in
        let winners := List.filter (fun t => get_pnl t >? Fin 0)%fl completed_trades in
        let losers := List.filter (fun t => get_pnl t <=? Fin 0)%fl completed_trades in
        let winning_trades := length winners in
        let losing_trades := length losers in
        let win_rate := (of_nat winning_trades / of_nat total_trades)%fl in
        let gross_profit := fsum (get_pnl <$> winners) in
        let gross_loss := fsum ((fun t => fabs (get_pnl t)) <$> losers) in
        let profit_factor :=
          if (gross_loss >? Fin 0)%fl then (gross_profit / gross_loss)%fl else PInf in
        let average_profit :=
          if (0 <? winning_trades)%nat
          then (gross_profit / of_nat winning_trades)%fl else Fin 0 in
        let average_loss :=
          if (0 <? losing_trades)%nat
          then (gross_loss / of_nat losing_trades)%fl else Fin 0 in
        let balance_history :=
          initial_balance self :: (balance_after <$> completed_trades) in
        let max_drawdown :=
          snd (fold_left drawdown_step balance_history
                 (initial_balance self, Fin 0)) in
        let returns :=
          zip_with (fun cur prev => cur / prev - Fin 1)%fl
                   (tail balance_history) balance_history in
        let avg_return := match returns with [] => Fin 0 | _ => mean returns end in
        let std_return := match returns with [] => Fin 1 | _ => np_std returns end in
        let sharpe_ratio :=
          if (std_return >? Fin 0)%fl
          then (avg_return / std_return * fsqrt (Fin 252))%fl else Fin 0 in
        Some
        {| total_trades := total_trades; winning_trades := winning_trades;
           losing_trades := losing_trades; win_rate := win_rate;
           profit_factor := profit_factor; average_profit := average_profit;
           average_loss := average_loss; max_drawdown := max_drawdown;
           sharpe_ratio := sharpe_ratio |}
    end in
  {| trades := trades self; signals := signals self;
     performance_metrics := metrics;
     initial_balance := initial_balance self;
     current_balance := current_balance self;
     position := position self; position_size := position_size self;
     risk_per_trade := risk_per_trade self;
     stop_loss_pct := stop_loss_pct self;
     take_profit_pct := take_profit_pct self |}.

(** ** [run_backtest] *)

(** The dict that [run_backtest] returns. *)
Record Report : Type := {
  r_initial_balance : float;
  r_final_balance : float;
  r_profit_loss : float;
  r_profit_loss_pct : float;
  r_trades : list TradeRecord;
  r_signals : list SignalData;
  r_metrics : option PerformanceMetrics
}.

Inductive Result : Type :=
| Error (msg : string)
| Success (report : Report).

Definition required_columns : list string :=
  ["openTime"; "open"; "high"; "low"; "close"; "volume"].

(** "Reset backtest state" *)
Definition reset (self : Engine)
    (initial_balance risk_per_trade stop_loss_pct take_profit_pct : float)
  : Engine :=
  {| trades := []; signals := [];
     performance_metrics := performance_metrics self;
     initial_balance := initial_balance;
     current_balance := initial_balance;
     position := None; position_size := Fin 0;
     risk_per_trade := risk_per_trade;
     stop_loss_pct := stop_loss_pct;
     take_profit_pct := take_profit_pct |}.

Definition append_signal (self : Engine) (signal_data : SignalData) : Engine :=
  {| trades := trades self; signals := signals self ++ [signal_data];
     performance_metrics := performance_metrics self;
     initial_balance := initial_balance self;
     current_balance := current_balance self;
     position := position self; position_size := position_size self;
     risk_per_trade := risk_per_trade self;
     stop_loss_pct := stop_loss_pct self;
     take_profit_pct := take_profit_pct self |}.

(** The signal record built for bar [i] ([None]: an exception). *)
Definition signal_data_at (df : DataFrame) (symbol : string) (i : nat)
  : option SignalData :=
  let current_data := iloc_prefix (i + 1) df in
  let signal := _generate_signal current_data symbol in
  latest ← iloc_last current_data;
  timestamp ← latest !! "openTime";
  price ← latest !! "close";
  Some {| sd_timestamp := timestamp; sd_symbol := symbol;
          sd_signal := signal; sd_price := price |}.

(** One iteration of the loop over the candles. *)
Definition bar (df : DataFrame) (symbol : string) (self : Engine) (i : nat)
  : option Engine :=
  signal_data ← signal_data_at df symbol i;
  Some (_execute_trade (append_signal self signal_data) signal_data
          (iloc_prefix (i + 1) df)).

(** The loop [for i in range(100, len(df))].  The flag is false when an
    iteration raised; the engine keeps what the earlier iterations did. *)
Fixpoint bars (df : DataFrame) (symbol : string) (self : Engine)
    (indices : list nat) : bool * Engine :=
  match indices with
  | [] => (true, self)
  | i :: rest =>
      match bar df symbol self i with
      | Some self' => bars df symbol self' rest
      | None => (false, self)
      end
  end.

Definition run_backtest (self : Engine) (klines : list (gmap string Q))
    (symbol : string) (start_date end_date : option Z)
    (initial_balance risk_per_trade stop_loss_pct take_profit_pct : float)
  : Result * Engine :=
  let self := reset self initial_balance risk_per_trade stop_loss_pct take_profit_pct in
  let historical_data := _get_historical_data klines start_date end_date in
  if (length historical_data <? 100)%nat then
    (Error "Insufficient historical data for backtesting", self)
  else
    let df := DataFrame_of historical_data in
    if negb (forallb (fun col => bool_decide (col ∈ dom (columns df))) required_columns)
    then (Error "Historical data missing required columns", self)
    else
      let df := _prepare_features df in
      match bars df symbol self (seq 100 (nrows df - 100)) with
      | (false, self) => (Error "Backtest failed", self)
      | (true, self) =>
          let self := _calculate_performance self in
          (* [self.current_balance] is the Python float [initial_balance]
             until a closing branch adds a numpy pnl to it; the division of
             [profit_loss_pct] then raises on a zero initial balance *)
          if is_zero (Backtesting.initial_balance self)
             && forallb (fun t => negb (String.eqb (status t) "CLOSED")) (trades self)
          then (Error "Backtest failed", self)
          else
          (Success
             {| r_initial_balance := Backtesting.initial_balance self;
                r_final_balance := current_balance self;
                r_profit_loss := (current_balance self - Backtesting.initial_balance self)%fl;
                r_profit_loss_pct :=
                  ((current_balance self / Backtesting.initial_balance self - Fin 1)
                   * Fin 100)%fl;
                r_trades := trades self;
                r_signals := signals self;
                r_metrics := performance_metrics self |},
           self)
      end.

End Backtesting.

(** * routes/metrics.py *)

Module Metrics.

Open Scope string_scope.

(** A row of the [Trade] table. *)
Record Trade : Type := {
  symbol : string;
  side : string;
  size : Q;
  price : Q;
  ts : Z
}.

(** A stored buy: the dict with the keys [size], [price] and [ts]. *)
Record Buy : Type := {
  buy_size : Q;
  buy_price : Q;
  buy_ts : Z
}.

(** [str.upper] on ASCII letters. *)
Definition upper_ascii (c : ascii) : ascii :=
  let n := nat_of_ascii c in
  if (97 <=? n)%nat && (n <=? 122)%nat then ascii_of_nat (n - 32) else c.

Fixpoint upper (s : string) : string :=
  match s with
  | EmptyString => EmptyString
  | String c r => String (upper_ascii c) (upper r)
  end.

(** Python's [min(a, b)]: the first argument unless the second is smaller. *)
Definition min_ (a b : Q) : Q := if Qlt_bool b a then b else a.

(** The loop [while qty_to_sell > 0 and positions[symbol]] on the queue of
    one symbol; [pnl] is [realised_pnl[symbol]].  [None] when the fuel runs
    out before the loop condition fails. *)
Fixpoint match_sell (fuel : nat) (qty_to_sell sell_price : Q) (sell_ts : Z)
    (queue : list Buy) (pnl : Q) (hold_times : list Z)
  : option (list Buy * Q * list Z) :=
  match queue with
  | buy :: rest =>
      if Qlt_bool 0 qty_to_sell then
        match fuel with
        | O => None
        | S fuel' =>
            let matched_size := min_ qty_to_sell (buy_size buy) in
            let pnl := pnl + (sell_price - buy_price buy) * matched_size in
            let hold_times := (hold_times ++ [(sell_ts - buy_ts buy)%Z])%list in
            let buy := {| buy_size := buy_size buy - matched_size;
                          buy_price := buy_price buy;
                          buy_ts := buy_ts buy |} in
            let qty_to_sell := qty_to_sell - matched_size in
            let queue := if Qle_bool (buy_size buy) 0 then rest else buy :: rest in
            match_sell fuel' qty_to_sell sell_price sell_ts queue pnl hold_times
        end
      else Some (queue, pnl, hold_times)
  | [] => Some (queue, pnl, hold_times)
  end.

(** The three locals of [_calculate_realised_pnl_and_hold_times]. *)
Record State : Type := {
  positions : gmap string (list Buy);
  realised_pnl : gmap string Q;
  hold_times : list Z
}.

Definition setdefault {V : Type} (k : string) (v : V) (m : gmap string V)
  : gmap string V :=
  match m !! k with Some _ => m | None => <[k := v]> m end.

(** The body of [for trade in trades]. *)
Definition process (st : State) (trade : Trade) : option State :=
  let symbol := upper (symbol trade) in
  let realised := setdefault symbol 0 (realised_pnl st) in
  let positions := setdefault symbol [] (positions st) in
  let queue := default [] (positions !! symbol) in
  if String.eqb (upper (side trade)) "BUY" then
    Some {| positions :=
              <[symbol := (queue ++ [ {| buy_size := size trade;
                                        buy_price := price trade;
                                        buy_ts := ts trade |} ])%list]> positions;
            realised_pnl := realised;
            hold_times := hold_times st |}
  else if String.eqb (upper (side trade)) "SELL" then
    match match_sell (S (length queue)) (size trade) (price trade) (ts trade)
            queue (default 0 (realised !! symbol)) (hold_times st) with
    | Some (queue', pnl, hold_times') =>
        Some {| positions := <[symbol := queue']> positions;
                realised_pnl := <[symbol := pnl]> realised;
                hold_times := hold_times' |}
    | None => None
    end
  else
    Some {| positions := positions; realised_pnl := realised;
            hold_times := hold_times st |}.

Fixpoint process_all (st : State) (trades : list Trade) : option State :=
  match trades with
  | [] => Some st
  | trade :: rest =>
      match process st trade with
      | Some st' => process_all st' rest
      | None => None
      end
  end.

Definition start : State :=
  {| positions := ∅; realised_pnl := ∅; hold_times := [] |}.

Definition _calculate_realised_pnl_and_hold_times (trades : list Trade)
  : option (gmap string Q * list Z) :=
  st ← process_all start trades;
  Some (realised_pnl st, hold_times st).

End Metrics.

(** * Properties of the position manager *)

Module PositionManager.

Import Backtesting.
Close Scope Q_scope.
Open Scope string_scope.
Open Scope list_scope.
Open Scope nat_scope.

(** A closing record as the three closing branches write it. *)
Definition closing_record (self : Engine) (sd : SignalData) (pos : Position)
    (why : string) (r : TradeRecord) : Prop :=
  side r = "SELL" /\ status r = "CLOSED" /\ reason r = Some why /\
  price r = sd_price sd /\
  quantity r = size pos /\
  pnl r = Some ((sd_price sd - entry_price pos) * size pos)%fl /\
  balance_after r = (current_balance self + (sd_price sd - entry_price pos) * size pos)%fl.

Lemma close_position_spec self sd pos why :
  let self' := close_position self sd pos why in
  exists r, trades self' = trades self ++ [r] /\
            closing_record self sd pos why r /\
            position self' = None /\
            current_balance self' = balance_after r.
Proof.
  eexists. split; [reflexivity |].
  unfold closing_record. cbn. auto 10.
Qed.

(** An engine holding one position: entry at 100, two units, stop at 98,
    target at 104, balance 10000. *)
Definition holding : Engine :=
  {| trades := []; signals := []; performance_metrics := None;
     initial_balance := Fin 10000; current_balance := Fin 10000;
     position := Some {| entry_price := Fin 100; size := Fin 2;
                         stop_loss := Fin 98; take_profit := Fin 104;
                         entry_time := Fin 0 |};
     position_size := Fin 2;
     risk_per_trade := Fin 0.02; stop_loss_pct := Fin 0.02;
     take_profit_pct := Fin 0.04 |}.

Definition tick (signal : string) (price : Q) : SignalData :=
  {| sd_timestamp := Fin 1; sd_symbol := "BTCUSDT";
     sd_signal := signal; sd_price := Fin price |}.

Definition no_frame : DataFrame := {| nrows := 0; columns := ∅ |}.

(** Candle histories: 101 candles closing at 100, followed by candles
    closing at the values of [tail]. *)
Definition kline (t : nat) (c : Q) : gmap string Q :=
  <["openTime" := inject_Z (Z.of_nat t)]>
    (<["open" := c]> (<["high" := c]> (<["low" := c]>
       (<["close" := c]> (<["volume" := 1%Q]> ∅))))).

Definition flat_then (tail : list Q) : list (gmap string Q) :=
  imap kline (replicate 101 100%Q ++ tail).

Definition features_of (klines : list (gmap string Q)) : DataFrame :=
  _prepare_features (DataFrame_of klines).

(** C1, as stated, fails: a bar at 90 under the stop at 98 is closed at 90,
    and the booked pnl is (90 - 100) * 2 = -20 and not (98 - 100) * 2 = -4. *)
Lemma C1_stop_exit_is_bar_price :
  let pos := {| entry_price := Fin 100; size := Fin 2; stop_loss := Fin 98;
                take_profit := Fin 104; entry_time := Fin 0 |} in
  let sd := tick "HOLD" 90 in
  position holding = Some pos /\
  (sd_price sd <=? stop_loss pos)%fl = true /\
  exists r, trades (_execute_trade holding sd no_frame) = [r] /\
            reason r = Some "STOP_LOSS" /\
            price r = Fin 90 /\ ~ price r =f= stop_loss pos /\
            pnl r = Some (Fin (-20)) /\
            ((stop_loss pos - entry_price pos) * size pos)%fl = Fin (-4).
Proof.
  cbv zeta. split; [reflexivity |]. split; [reflexivity |].
  eexists. split; [reflexivity |].
  repeat split; try reflexivity.
  cbn. intros H. apply Qeq_bool_iff in H. discriminate H.
Qed.

(** C1 (amended): a bar whose price is at or under the stop closes the
    position at the bar's price with reason STOP_LOSS; a bar whose price is
    not at or under the stop and is at or over the target closes it at the
    bar's price with reason TAKE_PROFIT; the booked pnl is
    (bar price - entry price) * size and is added to the balance. *)
Theorem C1_forced_close_at_bar_price (self : Engine) (sd : SignalData)
    (df : DataFrame) (pos : Position) :
  position self = Some pos ->
  ((sd_price sd <=? stop_loss pos)%fl = true ->
   exists r, trades (_execute_trade self sd df) = trades self ++ [r] /\
             closing_record self sd pos "STOP_LOSS" r /\
             position (_execute_trade self sd df) = None /\
             current_balance (_execute_trade self sd df) = balance_after r) /\
  ((sd_price sd <=? stop_loss pos)%fl = false ->
   (sd_price sd >=? take_profit pos)%fl = true ->
   exists r, trades (_execute_trade self sd df) = trades self ++ [r] /\
             closing_record self sd pos "TAKE_PROFIT" r /\
             position (_execute_trade self sd df) = None /\
             current_balance (_execute_trade self sd df) = balance_after r).
Proof.
  intros Hpos. unfold _execute_trade. rewrite Hpos. split.
  - intros Hsl. rewrite Hsl. apply close_position_spec.
  - intros Hsl Htp. rewrite Hsl, Htp. apply close_position_spec.
Qed.

Lemma C1_forced_close_at_bar_price_witness :
  exists r, trades (_execute_trade holding (tick "BUY" 105) no_frame) = [r] /\
            reason r = Some "TAKE_PROFIT" /\ price r = Fin 105 /\
            pnl r = Some (Fin 10).
Proof.
  destruct (C1_forced_close_at_bar_price holding (tick "BUY" 105) no_frame _ eq_refl)
    as [_ H].
  destruct (H eq_refl eq_refl) as (r & Ht & (_ & _ & Hr & Hp & _ & Hpnl & _) & _).
  exists r. repeat split; assumption.
Defined.


(** What [_execute_trade] does to an engine that holds a position. *)
Lemma execute_trade_open self sd df pos :
  position self = Some pos ->
  _execute_trade self sd df =
    if (sd_price sd <=? stop_loss pos)%fl then close_position self sd pos "STOP_LOSS"
    else if (sd_price sd >=? take_profit pos)%fl then close_position self sd pos "TAKE_PROFIT"
    else if String.eqb (sd_signal sd) "SELL" then close_position self sd pos "SIGNAL"
    else self.
Proof. intros H. unfold _execute_trade. rewrite H. reflexivity. Qed.

Lemma execute_trade_flat self sd df :
  position self = None ->
  _execute_trade self sd df =
    if String.eqb (sd_signal sd) "BUY" then open_position self sd else self.
Proof. intros H. unfold _execute_trade. rewrite H. reflexivity. Qed.

(** C4: with a position open, one bar checks the stop first, then the
    target, then the SELL signal; it appends at most one record, a closing
    one, and a bar that closed leaves the engine flat whatever its signal
    is (a BUY on that bar opens nothing). *)
Theorem C4_closing_order (self : Engine) (sd : SignalData) (df : DataFrame)
    (pos : Position) :
  position self = Some pos ->
  let self' := _execute_trade self sd df in
  let closed_for why :=
    exists r, trades self' = trades self ++ [r] /\
              closing_record self sd pos why r /\ position self' = None in
  ((sd_price sd <=? stop_loss pos)%fl = true -> closed_for "STOP_LOSS") /\
  ((sd_price sd <=? stop_loss pos)%fl = false ->
   (sd_price sd >=? take_profit pos)%fl = true -> closed_for "TAKE_PROFIT") /\
  ((sd_price sd <=? stop_loss pos)%fl = false ->
   (sd_price sd >=? take_profit pos)%fl = false ->
   sd_signal sd = "SELL" -> closed_for "SIGNAL") /\
  ((sd_price sd <=? stop_loss pos)%fl = false ->
   (sd_price sd >=? take_profit pos)%fl = false ->
   sd_signal sd <> "SELL" -> self' = self) /\
  (self' = self \/
   exists r, trades self' = trades self ++ [r] /\ status r = "CLOSED" /\
             side r = "SELL" /\ position self' = None).
Proof.
  intros Hpos self' closed_for. subst self' closed_for. cbv beta.
  rewrite (execute_trade_open _ _ _ _ Hpos).
  assert (Hc : forall why,
             exists r, trades (close_position self sd pos why) = trades self ++ [r] /\
                       closing_record self sd pos why r /\
                       position (close_position self sd pos why) = None).
  { intros why. destruct (close_position_spec self sd pos why) as (r & H1 & H2 & H3 & _).
    eauto. }
  repeat split.
  - intros ->. apply Hc.
  - intros -> ->. apply Hc.
  - intros -> -> ->. apply Hc.
  - intros -> -> Hs. apply String.eqb_neq in Hs. rewrite Hs. reflexivity.
  - destruct (sd_price sd <=? stop_loss pos)%fl;
      [| destruct (sd_price sd >=? take_profit pos)%fl;
         [| destruct (String.eqb (sd_signal sd) "SELL")]];
      try (left; reflexivity);
      right; eexists; (split; [reflexivity |]); cbn; auto.
Qed.

Lemma C4_closing_order_witness :
  exists r, trades (_execute_trade holding (tick "SELL" 97) no_frame) = [r] /\
            reason r = Some "STOP_LOSS" /\
            position (_execute_trade holding (tick "SELL" 97) no_frame) = None.
Proof.
  destruct (C4_closing_order holding (tick "SELL" 97) no_frame _ eq_refl)
    as (H & _).
  destruct (H eq_refl) as (r & Ht & (_ & _ & Hr & _) & Hp).
  exists r. repeat split; assumption.
Defined.

(** ** The replay *)

Definition count_status (s : string) (log : list TradeRecord) : nat :=
  length (List.filter (fun t => String.eqb (status t) s) log).

(** The positions a log leaves open: opening records not yet closed. *)
Definition open_positions (log : list TradeRecord) : nat :=
  count_status "OPEN" log - count_status "CLOSED" log.

Definition held (self : Engine) : nat :=
  match position self with Some _ => 1 | None => 0 end.

Definition balanced (self : Engine) : Prop :=
  count_status "OPEN" (trades self) = count_status "CLOSED" (trades self) + held self.

Lemma count_status_snoc s log r :
  count_status s (log ++ [r]) =
  count_status s log + (if String.eqb (status r) s then 1 else 0).
Proof.
  unfold count_status. rewrite List.filter_app, length_app. cbn.
  destruct (String.eqb (status r) s); reflexivity.
Qed.

Lemma execute_trade_balanced self sd df :
  balanced self -> balanced (_execute_trade self sd df).
Proof.
  unfold balanced, held. intros H.
  destruct (position self) as [pos |] eqn:Hpos.
  - rewrite (execute_trade_open _ _ _ _ Hpos).
    destruct (sd_price sd <=? stop_loss pos)%fl;
      [| destruct (sd_price sd >=? take_profit pos)%fl;
         [| destruct (String.eqb (sd_signal sd) "SELL")]];
      cbn [trades position close_position]; rewrite ?count_status_snoc; cbn;
      rewrite ?Hpos; lia.
  - rewrite (execute_trade_flat _ _ _ Hpos).
    destruct (String.eqb (sd_signal sd) "BUY");
      cbn [trades position open_position]; rewrite ?count_status_snoc; cbn;
      rewrite ?Hpos; lia.
Qed.

Lemma bar_balanced df symbol self i self' :
  bar df symbol self i = Some self' -> balanced self -> balanced self'.
Proof.
  unfold bar. destruct (signal_data_at df symbol i) as [sd |]; [| discriminate].
  cbn. intros [= <-] H. apply execute_trade_balanced. exact H.
Qed.

Lemma bars_balanced df symbol indices :
  forall self, balanced self -> balanced (snd (bars df symbol self indices)).
Proof.
  induction indices as [| i rest IH]; intros self H; cbn; [exact H |].
  destruct (bar df symbol self i) as [self' |] eqn:Hb; [| exact H].
  apply IH. eapply bar_balanced; eassumption.
Qed.

Lemma reset_balanced self b r s t : balanced (reset self b r s t).
Proof. reflexivity. Qed.

(** C3, as stated, fails: a BUY bar at 105 with the target at 104 finds the
    position open, closes it and books its pnl: position and balance change. *)
Lemma C3_buy_bar_can_close :
  let self' := _execute_trade holding (tick "BUY" 105) no_frame in
  is_Some (position holding) /\
  position self' = None /\
  current_balance holding = Fin 10000 /\
  current_balance self' = Fin 10010 /\
  ~ current_balance self' =f= current_balance holding.
Proof.
  cbv zeta. split; [eexists; reflexivity |].
  repeat split; try reflexivity.
  cbn. intros H. apply Qeq_bool_iff in H. discriminate H.
Qed.

(** C3 (amended): after any number of bars of a replay the log leaves at
    most one position open, and exactly one when the engine holds one; a BUY
    bar that finds a position open never appends an opening record, and when
    its price is neither at or under the stop nor at or over the target it
    leaves the whole engine -- position and balance -- as it was. *)
Theorem C3_single_position (df : DataFrame) (symbol : string) (self : Engine)
    (initial_balance risk_per_trade stop_loss_pct take_profit_pct : float)
    (indices : list nat) (sd : SignalData) (pos : Position) :
  let start := reset self initial_balance risk_per_trade stop_loss_pct take_profit_pct in
  let now := snd (bars df symbol start indices) in
  (open_positions (trades now) <= 1)%nat /\
  open_positions (trades now) = held now /\
  (position now = Some pos -> sd_signal sd = "BUY" ->
   let next := _execute_trade now sd df in
   count_status "OPEN" (trades next) = count_status "OPEN" (trades now) /\
   ((sd_price sd <=? stop_loss pos)%fl = false ->
    (sd_price sd >=? take_profit pos)%fl = false ->
    next = now)).
Proof.
  intros start now.
  assert (Hb : balanced now) by (apply bars_balanced, reset_balanced).
  split; [unfold open_positions; rewrite Hb; unfold held;
          destruct (position now); lia |].
  split; [unfold open_positions; rewrite Hb; lia |].
  intros Hpos Hsig. cbv zeta.
  rewrite (execute_trade_open _ _ _ _ Hpos), Hsig. cbn [String.eqb].
  split.
  - destruct (sd_price sd <=? stop_loss pos)%fl;
      [| destruct (sd_price sd >=? take_profit pos)%fl];
      cbn [trades close_position]; rewrite ?count_status_snoc; cbn; lia.
  - intros -> ->. reflexivity.
Qed.

Lemma C3_single_position_witness :
  let df := features_of (flat_then [99%Q]) in
  let now := snd (bars df "BTCUSDT"
                    (reset init (Fin 10000) (Fin 0.02) (Fin 0.02) (Fin 0.04)) [100]) in
  is_Some (position now) /\
  _execute_trade now (tick "BUY" 101) df = now.
Proof.
  cbv zeta.
  pose (pos := {| entry_price := Fin 100; size := Fin 2; stop_loss := Fin 98;
                  take_profit := Fin 104; entry_time := Fin 100 |}).
  split; [exists pos; vm_compute; reflexivity |].
  refine (proj2 (proj2 (proj2 (C3_single_position (features_of (flat_then [99%Q]))
            "BTCUSDT" init (Fin 10000) (Fin 0.02) (Fin 0.02) (Fin 0.04)
            [100] (tick "BUY" 101) pos)) _ _) _ _).
  - vm_compute; reflexivity.
  - reflexivity.
  - vm_compute; reflexivity.
  - vm_compute; reflexivity.
Defined.

End PositionManager.

(** * Properties of the trade log *)

Module Ledger.

Import Backtesting.
Import PositionManager.
Close Scope Q_scope.
Open Scope string_scope.
Open Scope list_scope.
Open Scope nat_scope.

(** The bars of a replay, seen from the position manager: every bar appends
    its signal record and executes it. *)
Definition replay (sds : list SignalData) (self : Engine) : Engine :=
  fold_left (fun s sd => _execute_trade (append_signal s sd) sd no_frame) sds self.

Lemma replay_snoc_signals sds :
  forall self, signals (replay sds self) = signals self ++ sds.
Proof.
  induction sds as [| sd rest IH]; intros self; cbn.
  - symmetry. apply app_nil_r.
  - rewrite IH.
    assert (H : signals (_execute_trade (append_signal self sd) sd no_frame)
                = signals self ++ [sd]).
    { unfold _execute_trade.
      destruct (position (append_signal self sd));
        repeat match goal with |- context [if ?c then _ else _] => destruct c end;
        reflexivity. }
    rewrite H, <- app_assoc. reflexivity.
Qed.

Lemma signal_data_at_symbol df symbol i sd :
  signal_data_at df symbol i = Some sd -> sd_symbol sd = symbol.
Proof.
  unfold signal_data_at.
  destruct (iloc_last _) as [latest |]; [cbn | discriminate].
  destruct (latest !! "openTime"); [cbn | discriminate].
  destruct (latest !! "close"); [cbn | discriminate].
  intros [= <-]. reflexivity.
Qed.

(** The loop of [run_backtest] is a replay of the signal records it built,
    all of them for the run's symbol. *)
Lemma bars_replay df symbol indices :
  forall self ok self',
    bars df symbol self indices = (ok, self') ->
    exists sds, self' = replay sds self /\
                Forall (fun sd => sd_symbol sd = symbol) sds.
Proof.
  induction indices as [| i rest IH]; intros self ok self'; cbn.
  - intros [= _ <-]. exists []. split; [reflexivity | constructor].
  - unfold bar. destruct (signal_data_at df symbol i) as [sd |] eqn:Hsd; cbn.
    + intros H. destruct (IH _ _ _ H) as (sds & -> & Hall).
      exists (sd :: sds). split; [reflexivity |].
      constructor; [eapply signal_data_at_symbol; eassumption | exact Hall].
    + intros [= _ <-]. exists []. split; [reflexivity | constructor].
Qed.

(** ** Alternation *)

(** What the record at index [i] of a log must look like. *)
Definition in_turn (log : list TradeRecord) (i : nat) (r : TradeRecord) : Prop :=
  if Nat.even i then status r = "OPEN" /\ side r = "BUY"
  else status r = "CLOSED" /\ side r = "SELL" /\
       exists o, log !! (i - 1) = Some o /\
                 symbol r = symbol o /\ quantity r = quantity o.

Definition alternating (log : list TradeRecord) : Prop :=
  forall i r, log !! i = Some r -> in_turn log i r.

Record shape (sym : string) (self : Engine) : Prop := {
  shape_log : alternating (trades self);
  shape_flat : position self = None -> Nat.even (length (trades self)) = true;
  shape_open : forall pos, position self = Some pos ->
     Nat.even (length (trades self)) = false /\
     exists o, trades self !! (length (trades self) - 1) = Some o /\
               symbol o = sym /\ quantity o = size pos
}.

Lemma alternating_snoc log r :
  alternating log -> in_turn (log ++ [r]) (length log) r -> alternating (log ++ [r]).
Proof.
  intros Hlog Hr i x Hi. apply lookup_snoc_Some in Hi as [[Hlt Hi] | [-> ->]].
  - specialize (Hlog i x Hi). unfold in_turn in *.
    destruct (Nat.even i); [exact Hlog |].
    destruct Hlog as (H1 & H2 & o & Ho & H3). split; [exact H1 |]. split; [exact H2 |].
    exists o. split; [| exact H3]. apply lookup_app_l_Some. exact Ho.
  - exact Hr.
Qed.

Lemma execute_trade_shape sym self sd :
  shape sym self -> sd_symbol sd = sym ->
  shape sym (_execute_trade (append_signal self sd) sd no_frame).
Proof.
  intros [Hlog Hflat Hopen] Hsym.
  assert (Hclose : forall pos why, position self = Some pos ->
            shape sym (close_position (append_signal self sd) sd pos why)).
  { intros pos why Hpos. destruct (Hopen pos Hpos) as (Hodd & o & Ho & Hos & Hoq).
    constructor; cbn [trades position close_position append_signal].
    - apply alternating_snoc; [exact Hlog |]. unfold in_turn. rewrite Hodd.
      split; [reflexivity |]. split; [reflexivity |].
      exists o. split; [apply lookup_app_l_Some; exact Ho |].
      cbn. split; congruence.
    - intros _. rewrite length_app. cbn. rewrite Nat.add_1_r, Nat.even_succ.
      rewrite <- Nat.negb_even, Hodd. reflexivity.
    - intros pos' [=]. }
  unfold _execute_trade. cbn [position append_signal].
  destruct (position self) as [pos |] eqn:Hpos.
  - destruct (sd_price sd <=? stop_loss pos)%fl; [apply Hclose; reflexivity |].
    destruct (sd_price sd >=? take_profit pos)%fl; [apply Hclose; reflexivity |].
    destruct (String.eqb (sd_signal sd) "SELL"); [apply Hclose; reflexivity |].
    constructor; cbn [trades position append_signal]; [exact Hlog | |].
    + rewrite Hpos. discriminate.
    + rewrite Hpos. exact Hopen.
  - destruct (String.eqb (sd_signal sd) "BUY").
    + specialize (Hflat eq_refl).
      constructor; cbn [trades position open_position append_signal].
      * apply alternating_snoc; [exact Hlog |]. unfold in_turn. rewrite Hflat.
        split; reflexivity.
      * discriminate.
      * intros pos [= <-]. rewrite length_app. cbn.
        rewrite Nat.add_1_r, Nat.even_succ, <- Nat.negb_even, Hflat.
        split; [reflexivity |].
        eexists. split.
        { replace (S (length (trades self)) - 1) with (length (trades self)) by lia.
          apply list_lookup_middle. reflexivity. }
        cbn. split; [exact Hsym | reflexivity].
    + constructor; cbn [trades position append_signal]; [exact Hlog | |].
      * intros _. apply Hflat. reflexivity.
      * rewrite Hpos. discriminate.
Qed.

Lemma replay_shape sym sds :
  forall self, shape sym self -> Forall (fun sd => sd_symbol sd = sym) sds ->
               shape sym (replay sds self).
Proof.
  induction sds as [| sd rest IH]; intros self H Hall; cbn; [exact H |].
  inversion Hall; subst. apply IH; [| assumption].
  apply execute_trade_shape; [exact H | reflexivity].
Qed.


(** ** Accounting *)

(** The balance that the records of [log] leave, from the balance [b0]: the
    pnl of the closing records added one after another, in the order of the
    log, by the addition the code uses. *)
Definition booked (b0 : float) (log : list TradeRecord) : float :=
  fold_left fadd (omap pnl log) b0.

Lemma booked_snoc b0 log r :
  booked b0 (log ++ [r]) =
  match pnl r with Some p => (booked b0 log + p)%fl | None => booked b0 log end.
Proof.
  unfold booked. rewrite omap_app, fold_left_app. cbn.
  destruct (pnl r); reflexivity.
Qed.

(** How a record stands to the balance [prev] booked before it. *)
Definition entry (prev : float) (r : TradeRecord) : Prop :=
  match pnl r with
  | None =>
      status r = "OPEN" /\ balance_before r = prev /\ balance_after r = prev
  | Some p =>
      status r = "CLOSED" /\ balance_after r = (prev + p)%fl /\
      balance_before r = (balance_after r - p)%fl
  end.

Record accounts (b0 : float) (self : Engine) : Prop := {
  acc_balance : current_balance self = booked b0 (trades self);
  acc_entries : forall k r, trades self !! k = Some r ->
     entry (booked b0 (take k (trades self))) r
}.

Lemma accounts_snoc b0 self self' r :
  accounts b0 self ->
  trades self' = trades self ++ [r] ->
  entry (current_balance self) r ->
  current_balance self' = balance_after r ->
  accounts b0 self'.
Proof.
  intros [Hbal Hent] Ht Hr Hb. constructor; rewrite Ht.
  - rewrite Hb, booked_snoc. unfold entry in Hr. rewrite Hbal in Hr.
    destruct (pnl r); intuition congruence.
  - intros k x Hk. apply lookup_snoc_Some in Hk as [[Hlt Hk] | [-> ->]].
    + rewrite take_app_le by lia. apply Hent. exact Hk.
    + rewrite take_app_length, <- Hbal. exact Hr.
Qed.

Lemma execute_trade_accounts b0 self sd :
  accounts b0 self ->
  accounts b0 (_execute_trade (append_signal self sd) sd no_frame).
Proof.
  intros Hacc.
  assert (Hclose : forall pos why,
            accounts b0 (close_position (append_signal self sd) sd pos why)).
  { intros pos why. eapply accounts_snoc; [exact Hacc | reflexivity | | reflexivity].
    unfold entry. cbn. auto. }
  unfold _execute_trade. cbn [position append_signal].
  destruct (position self) as [pos |].
  - destruct (sd_price sd <=? stop_loss pos)%fl; [apply Hclose |].
    destruct (sd_price sd >=? take_profit pos)%fl; [apply Hclose |].
    destruct (String.eqb (sd_signal sd) "SELL"); [apply Hclose |].
    destruct Hacc. constructor; assumption.
  - destruct (String.eqb (sd_signal sd) "BUY").
    + eapply accounts_snoc; [exact Hacc | reflexivity | | reflexivity].
      unfold entry. cbn. auto.
    + destruct Hacc. constructor; assumption.
Qed.

Lemma replay_accounts b0 sds :
  forall self, accounts b0 self -> accounts b0 (replay sds self).
Proof.
  induction sds as [| sd rest IH]; intros self H; cbn; [exact H |].
  apply IH, execute_trade_accounts, H.
Qed.

Lemma reset_shape sym self b r s t : shape sym (reset self b r s t).
Proof.
  constructor; cbn.
  - intros i x Hi. rewrite lookup_nil in Hi. discriminate.
  - reflexivity.
  - discriminate.
Qed.

Lemma reset_accounts self b r s t : accounts b (reset self b r s t).
Proof.
  constructor; cbn; [reflexivity |].
  intros k x Hk. rewrite lookup_nil in Hk. discriminate.
Qed.

(** What a successful run returns, in terms of the replay. *)
Lemma run_backtest_success self klines symbol start_date end_date b r s t
    report self' :
  run_backtest self klines symbol start_date end_date b r s t
    = (Success report, self') ->
  exists sds,
    let final := replay sds (reset self b r s t) in
    Forall (fun sd => sd_symbol sd = symbol) sds /\
    r_trades report = trades final /\
    r_signals report = sds /\
    r_final_balance report = current_balance final.
Proof.
  unfold run_backtest.
  destruct (length _ <? 100); [discriminate |].
  destruct (negb _); [discriminate |].
  destruct (bars _ _ _ _) as [[|] st] eqn:Hbars; [| discriminate].
  destruct (_ && _); [discriminate |].
  intros [= <- _].
  destruct (bars_replay _ _ _ _ _ _ Hbars) as (sds & -> & Hsym).
  exists sds. cbn. split; [exact Hsym |]. split; [reflexivity |].
  split; [| reflexivity].
  rewrite replay_snoc_signals. reflexivity.
Qed.

(** A history of 100 candles closing at 100, one closing at 0 and one
    closing at 50. *)
Definition zero_close_history : list (gmap string Q) :=
  imap kline (replicate 100 100%Q ++ [0%Q; 50%Q]).

(** C10, as stated, fails: in the run on [zero_close_history] the bar that
    closes at 0 gives BUY, the position opened at price 0 has an infinite
    size, and the next bar closes it with an infinite pnl; for that closing
    record balance_after - balance_before is NaN and not the pnl. *)
Lemma C10_zero_price_breaks_the_identity :
  exists report o c,
    fst (run_backtest init zero_close_history "BTCUSDT" None None
           (Fin 10000) (Fin 0.02) (Fin 0.02) (Fin 0.04)) = Success report /\
    r_trades report = [o; c] /\
    price o = Fin 0 /\ quantity o = PInf /\
    status c = "CLOSED" /\ pnl c = Some PInf /\
    (balance_after c - balance_before c)%fl = NaN /\
    ~ (balance_after c - balance_before c)%fl =f= get_pnl c.
Proof.
  eexists _, _, _. split; [vm_compute; reflexivity |].
  split; [reflexivity |]. cbn. repeat split. intros [].
Qed.

(** C10 (amended): in the log of a run the records alternate -- at an even
    index an OPEN BUY record, at an odd index a CLOSED SELL record with the
    symbol and the quantity of the record before it.  An OPEN record books
    no pnl, and its balance_before and balance_after are the balance booked
    so far.  A CLOSED record has balance_after = balance booked so far + pnl
    and balance_before = balance_after - pnl, each computed by one addition
    or subtraction of the code.  Every balance_after, and the final balance,
    is the initial balance with the pnl of the closing records up to there
    added one after another in log order. *)
Theorem C10_trade_log (self : Engine) (klines : list (gmap string Q))
    (symbol : string) (start_date end_date : option Z)
    (initial_balance risk_per_trade stop_loss_pct take_profit_pct : float)
    (report : Report) (self' : Engine) :
  run_backtest self klines symbol start_date end_date
    initial_balance risk_per_trade stop_loss_pct take_profit_pct
    = (Success report, self') ->
  let log := r_trades report in
  alternating log /\
  (forall k r, log !! k = Some r ->
     entry (booked initial_balance (take k log)) r /\
     balance_after r = booked initial_balance (take (S k) log)) /\
  r_final_balance report = booked initial_balance log.
Proof.
  intros Hrun log. subst log.
  destruct (run_backtest_success _ _ _ _ _ _ _ _ _ _ _ Hrun)
    as (sds & Hsym & -> & _ & ->).
  pose proof (replay_accounts initial_balance sds _
                (reset_accounts self initial_balance risk_per_trade
                   stop_loss_pct take_profit_pct))
    as [Hbal Hent].
  split; [| split; [| exact Hbal]].
  - apply (shape_log symbol). apply replay_shape; [apply reset_shape | exact Hsym].
  - intros k x Hk. pose proof (Hent k x Hk) as He. split; [exact He |].
    rewrite (take_S_r _ _ _ Hk), booked_snoc.
    unfold entry in He. destruct (pnl x); intuition congruence.
Qed.

Lemma C10_trade_log_witness :
  exists report,
    fst (run_backtest init (flat_then [99; 90]%Q) "BTCUSDT" None None
           (Fin 10000) (Fin 0.02) (Fin 0.02) (Fin 0.04)) = Success report /\
    length (r_trades report) = 2 /\
    alternating (r_trades report) /\
    r_final_balance report = booked (Fin 10000) (r_trades report).
Proof.
  destruct (run_backtest init (flat_then [99; 90]%Q) "BTCUSDT" None None
              (Fin 10000) (Fin 0.02) (Fin 0.02) (Fin 0.04))
    as [[msg | report] self'] eqn:Hrun.
  - vm_compute in Hrun. discriminate Hrun.
  - exists report. split; [reflexivity |].
    destruct (C10_trade_log _ _ _ _ _ _ _ _ _ _ _ Hrun) as (Halt & _ & Hfinal).
    assert (Hr : report = match fst (run_backtest init (flat_then [99; 90]%Q)
                  "BTCUSDT" None None (Fin 10000) (Fin 0.02) (Fin 0.02) (Fin 0.04))
                          with Success x => x | Error _ => report end)
      by (rewrite Hrun; reflexivity).
    split; [rewrite Hr; vm_compute; reflexivity |].
    split; [exact Halt | exact Hfinal].
Defined.

End Ledger.

(** * Properties of the driver *)

Module Driver.

Import Backtesting.
Import PositionManager.
Import Ledger.
Close Scope Q_scope.
Open Scope string_scope.
Open Scope list_scope.
Open Scope nat_scope.

(** ** The columns of a frame *)

Lemma elem_of_keys_of data c :
  c ∈ keys_of data <-> exists k : gmap string Q, k ∈ data /\ is_Some (k !! c).
Proof.
  unfold keys_of. rewrite elem_of_union_list. split.
  - intros (X & HX & Hc). apply list_elem_of_fmap in HX as (k & -> & Hk).
    exists k. split; [exact Hk |]. apply elem_of_dom. exact Hc.
  - intros (k & Hk & Hc). exists (dom k). split.
    + apply list_elem_of_fmap. exists k. split; [reflexivity | exact Hk].
    + apply elem_of_dom. exact Hc.
Qed.

Lemma columns_DataFrame_of data c :
  columns (DataFrame_of data) !! c =
  if decide (c ∈ keys_of data) then Some (column_of data c) else None.
Proof.
  cbn. destruct (decide (c ∈ keys_of data)) as [Hin | Hout].
  - apply lookup_set_to_map; [intros y1 y2 _ _ E; exact E |].
    exists c. split; [exact Hin | reflexivity].
  - apply eq_None_not_Some. intros [x Hx].
    apply lookup_set_to_map in Hx as (y & Hy & [= -> _]);
      [contradiction | intros y1 y2 _ _ E; exact E].
Qed.

Lemma has_column_DataFrame_of data c :
  bool_decide (c ∈ dom (columns (DataFrame_of data))) = true <->
  exists k : gmap string Q, k ∈ data /\ is_Some (k !! c).
Proof.
  rewrite bool_decide_eq_true, elem_of_dom, columns_DataFrame_of, <- elem_of_keys_of.
  destruct (decide (c ∈ keys_of data)) as [H | H].
  - split; [intros _; exact H | intros _; eexists; reflexivity].
  - split; [intros [x Hx]; discriminate | intros; contradiction].
Qed.

(** C6: a run on fewer than 100 candles, or on candles none of which has
    one of the required columns, returns an error and nothing else: the
    replay is not entered, the engine has no trades and no signals, and the
    performance metrics are not computed. *)
Theorem C6_insufficient_data (self : Engine) (klines : list (gmap string Q))
    (symbol : string) (start_date end_date : option Z)
    (initial_balance risk_per_trade stop_loss_pct take_profit_pct : float) :
  let historical_data := _get_historical_data klines start_date end_date in
  length historical_data < 100 \/
  (exists col, In col required_columns /\
               forall k : gmap string Q, k ∈ historical_data -> k !! col = None) ->
  exists msg self',
    run_backtest self klines symbol start_date end_date
      initial_balance risk_per_trade stop_loss_pct take_profit_pct
      = (Error msg, self') /\
    (msg = "Insufficient historical data for backtesting" \/
     msg = "Historical data missing required columns") /\
    trades self' = [] /\ signals self' = [] /\
    performance_metrics self' = performance_metrics self.
Proof.
  intros historical_data H. unfold run_backtest. fold historical_data.
  destruct (length historical_data <? 100) eqn:Hlen.
  - eexists _, _. split; [reflexivity |]. cbn. auto.
  - destruct H as [H | (col & Hcol & Hnone)].
    { apply Nat.ltb_ge in Hlen. lia. }
    destruct (forallb _ required_columns) eqn:Hall; cbn [negb].
    + exfalso. rewrite forallb_forall in Hall. specialize (Hall col Hcol).
      apply has_column_DataFrame_of in Hall as (k & Hk & [x Hx]).
      rewrite (Hnone k Hk) in Hx. discriminate.
    + eexists _, _. split; [reflexivity |]. cbn. auto.
Qed.

Lemma C6_insufficient_data_witness :
  exists msg self',
    run_backtest init (take 99 (flat_then [])) "BTCUSDT" None None
      (Fin 10000) (Fin 0.02) (Fin 0.02) (Fin 0.04) = (Error msg, self') /\
    trades self' = [] /\ signals self' = [].
Proof.
  destruct (C6_insufficient_data init (take 99 (flat_then [])) "BTCUSDT" None None
              (Fin 10000) (Fin 0.02) (Fin 0.02) (Fin 0.04))
    as (msg & self' & Hrun & _ & Ht & Hs & _).
  - left. vm_compute. lia.
  - exists msg, self'. auto.
Defined.


(** ** The loop never raises on a frame with the required columns *)

Lemma setitem_keeps c k v df :
  is_Some (columns df !! c) -> is_Some (columns (setitem k v df) !! c).
Proof.
  intros H. cbn. apply lookup_insert_is_Some.
  destruct (decide (k = c)); [left; assumption | right; split; assumption].
Qed.

Lemma prepare_features_keeps c df :
  is_Some (columns df !! c) -> is_Some (columns (_prepare_features df) !! c).
Proof.
  intros H. unfold _prepare_features.
  destruct (columns df !! "close") as [close |]; [| exact H].
  cbn [fillna_bfill columns]. rewrite lookup_fmap. apply fmap_is_Some.
  repeat apply setitem_keeps. exact H.
Qed.

Lemma prepare_features_nrows df : nrows (_prepare_features df) = nrows df.
Proof.
  unfold _prepare_features. destruct (columns df !! "close"); reflexivity.
Qed.

Lemma signal_data_at_is_Some df symbol i :
  i < nrows df ->
  is_Some (columns df !! "openTime") -> is_Some (columns df !! "close") ->
  is_Some (signal_data_at df symbol i).
Proof.
  intros Hi [t Ht] [c Hc]. unfold signal_data_at, iloc_last.
  cbn [iloc_prefix nrows columns].
  replace (Nat.min (i + 1) (nrows df)) with (S i) by lia.
  cbn. rewrite !lookup_fmap, Ht, Hc. cbn. eexists. reflexivity.
Qed.

Lemma bars_ok df symbol indices :
  (forall i, In i indices -> is_Some (signal_data_at df symbol i)) ->
  forall self, exists self',
    bars df symbol self indices = (true, self') /\
    length (signals self') = length (signals self) + length indices.
Proof.
  induction indices as [| i rest IH]; intros Hall self; cbn.
  - exists self. split; [reflexivity | lia].
  - destruct (Hall i (or_introl eq_refl)) as [sd Hsd].
    unfold bar. rewrite Hsd. cbn.
    destruct (IH (fun j Hj => Hall j (or_intror Hj))
                 (_execute_trade (append_signal self sd) sd (iloc_prefix (i + 1) df)))
      as (self' & Hrun & Hlen).
    exists self'. split; [exact Hrun |]. rewrite Hlen.
    change (_execute_trade (append_signal self sd) sd (iloc_prefix (i + 1) df))
      with (replay [sd] self).
    rewrite replay_snoc_signals, length_app. cbn. lia.
Qed.

Lemma replay_initial_balance sds :
  forall self, initial_balance (replay sds self) = initial_balance self.
Proof.
  induction sds as [| sd rest IH]; intros self; cbn; [reflexivity |].
  rewrite IH. unfold _execute_trade. cbn [position append_signal].
  destruct (position self) as [pos |].
  - destruct (sd_price sd <=? stop_loss pos)%fl; [reflexivity |].
    destruct (sd_price sd >=? take_profit pos)%fl; [reflexivity |].
    destruct (String.eqb (sd_signal sd) "SELL"); reflexivity.
  - destruct (String.eqb (sd_signal sd) "BUY"); reflexivity.
Qed.

(** C7, as stated, fails: a run with the initial balance -1000 and the risk
    fraction 5 is replayed like any other; it returns a report with three
    signals and two trades. *)
Lemma C7_invalid_parameters_are_replayed :
  (Fin (-1000) <=? Fin 0)%fl = true /\ (Fin 5 >? Fin 1)%fl = true /\
  exists report,
    fst (run_backtest init (flat_then [99; 98]%Q) "BTCUSDT" None None
           (Fin (-1000)) (Fin 5) (Fin 0.02) (Fin 0.04)) = Success report /\
    length (r_signals report) = 3 /\ length (r_trades report) = 2 /\
    is_Some (r_metrics report).
Proof.
  split; [reflexivity |]. split; [reflexivity |].
  eexists. split; [vm_compute; reflexivity |].
  split; [reflexivity |]. split; [reflexivity |]. eexists. reflexivity.
Qed.

Lemma calculate_performance_keeps self :
  trades (_calculate_performance self) = trades self /\
  signals (_calculate_performance self) = signals self /\
  initial_balance (_calculate_performance self) = initial_balance self.
Proof. repeat split. Qed.

Lemma metrics_after self :
  performance_metrics (_calculate_performance self) = None <->
  is_zero (initial_balance self) = true /\
  forallb (fun t => negb (String.eqb (status t) "CLOSED")) (trades self) = false.
Proof.
  cbn [_calculate_performance performance_metrics].
  induction (trades self) as [| t log IH]; cbn [List.filter forallb].
  - split; [discriminate | intros [_ H]; discriminate].
  - destruct (String.eqb (status t) "CLOSED"); cbn [negb andb].
    + destruct (is_zero (initial_balance self)); split; try discriminate; auto.
      intros [H _]. discriminate.
    + exact IH.
Qed.

(** C7 (amended): the run parameters are not checked.  Whatever the initial
    balance, the risk fraction and the two percentages are, a run on at
    least 100 candles that have the required columns goes through the replay
    and records one signal for every candle from index 100 on.  With an
    initial balance other than zero (a negative one too) it returns a report
    with these signals and with the performance metrics.  With an initial
    balance of zero nothing is rejected before the replay either; after it a
    division by the initial balance raises: the run ends in the error
    "Backtest failed" when no trade was closed, and returns a report with
    empty metrics when one was. *)
Theorem C7_parameters_are_not_checked (self : Engine)
    (klines : list (gmap string Q)) (symbol : string)
    (start_date end_date : option Z)
    (initial_balance risk_per_trade stop_loss_pct take_profit_pct : float) :
  let historical_data := _get_historical_data klines start_date end_date in
  let run := run_backtest self klines symbol start_date end_date
               initial_balance risk_per_trade stop_loss_pct take_profit_pct in
  let no_close :=
    forallb (fun t => negb (String.eqb (status t) "CLOSED")) (trades (snd run)) in
  100 <= length historical_data ->
  (forall col, In col required_columns ->
     exists k : gmap string Q, k ∈ historical_data /\ is_Some (k !! col)) ->
  length (signals (snd run)) = length historical_data - 100 /\
  (is_zero initial_balance = false ->
   exists report,
     fst run = Success report /\
     r_initial_balance report = initial_balance /\
     r_signals report = signals (snd run) /\
     is_Some (r_metrics report)) /\
  (is_zero initial_balance = true -> no_close = true ->
   fst run = Error "Backtest failed") /\
  (is_zero initial_balance = true -> no_close = false ->
   exists report,
     fst run = Success report /\
     r_signals report = signals (snd run) /\
     r_metrics report = None).
Proof.
  intros historical_data run no_close Hlen Hcols. subst run no_close.
  unfold run_backtest. fold historical_data.
  apply Nat.ltb_ge in Hlen. rewrite Hlen.
  assert (Hall : forallb
            (fun col => bool_decide (col ∈ dom (columns (DataFrame_of historical_data))))
            required_columns = true).
  { apply forallb_forall. intros col Hcol.
    apply has_column_DataFrame_of, Hcols, Hcol. }
  rewrite Hall. cbn [negb].
  assert (Hcol : forall col, In col required_columns ->
            is_Some (columns (_prepare_features (DataFrame_of historical_data)) !! col)).
  { intros col Hin. apply prepare_features_keeps.
    rewrite forallb_forall in Hall. specialize (Hall col Hin).
    apply bool_decide_eq_true, elem_of_dom in Hall. exact Hall. }
  set (df := _prepare_features (DataFrame_of historical_data)) in *.
  destruct (bars_ok df symbol (seq 100 (nrows df - 100)))
    with (self := reset self initial_balance risk_per_trade stop_loss_pct take_profit_pct)
    as (st & Hbars & Hsig).
  { intros i Hi. apply in_seq in Hi.
    apply signal_data_at_is_Some; [lia | apply Hcol | apply Hcol]; cbn; auto 10. }
  rewrite Hbars.
  assert (Hinit : Backtesting.initial_balance st = initial_balance).
  { destruct (bars_replay _ _ _ _ _ _ Hbars) as (sds & -> & _).
    apply replay_initial_balance. }
  assert (Hcount : length (signals st) = length historical_data - 100).
  { rewrite Hsig, length_seq. subst df. rewrite prepare_features_nrows. cbn. lia. }
  destruct (calculate_performance_keeps st) as (Ht & Hs & Hi).
  pose proof (metrics_after st) as Hm.
  rewrite Hi, Ht, Hinit. rewrite Hinit in Hm.
  destruct (is_zero initial_balance) eqn:Hzero; cbn [andb].
  - destruct (forallb _ (trades st)) eqn:Hnc; cbn [fst snd].
    + rewrite Ht, Hs, Hnc. repeat split; try discriminate. exact Hcount.
    + rewrite Ht, Hs, Hnc. repeat split; try discriminate; [exact Hcount |].
      intros _ _. eexists. split; [reflexivity |].
      cbn [r_initial_balance r_signals r_metrics]. split; [reflexivity |].
      apply Hm. auto.
  - cbn [fst snd]. rewrite Hs. repeat split; try discriminate; [exact Hcount |].
    intros _. eexists. split; [reflexivity |].
    cbn [r_initial_balance r_signals r_metrics].
    split; [reflexivity |]. split; [reflexivity |].
    destruct (performance_metrics (_calculate_performance st)) eqn:Hp;
      [eexists; reflexivity |].
    destruct (proj1 Hm eq_refl) as [Hfalse _]. discriminate Hfalse.
Qed.

Lemma C7_parameters_are_not_checked_witness :
  let run := run_backtest init (flat_then [99; 98]%Q) "BTCUSDT"
               None None (Fin (-1000)) (Fin 5) (Fin 0.02) (Fin 0.04) in
  length (signals (snd run)) = 3 /\
  exists report, fst run = Success report /\ is_Some (r_metrics report).
Proof.
  destruct (C7_parameters_are_not_checked init (flat_then [99; 98]%Q) "BTCUSDT"
              None None (Fin (-1000)) (Fin 5) (Fin 0.02) (Fin 0.04))
    as (Hlen & Hrep & _).
  - vm_compute. lia.
  - intros col Hcol. exists (kline 0 100). split.
    + apply list_elem_of_In. left. reflexivity.
    + cbn in Hcol.
      repeat (destruct Hcol as [<- | Hcol]; [vm_compute; eexists; reflexivity |]).
      contradiction.
  - split; [exact Hlen |].
    destruct (Hrep eq_refl) as (report & Hrun & _ & _ & Hm).
    exists report. split; [exact Hrun | exact Hm].
Defined.

(** The two runs with an initial balance of zero: one that closes no trade
    and one that closes one. *)
Example runs_with_zero_balance :
  let run history :=
    run_backtest init history "BTCUSDT" None None
      (Fin 0) (Fin 0.02) (Fin 0.02) (Fin 0.04) in
  fst (run (flat_then [101%Q])) = Error "Backtest failed" /\
  length (signals (snd (run (flat_then [101%Q])))) = 2 /\
  exists report,
    fst (run (flat_then [99; 90]%Q)) = Success report /\
    length (r_trades report) = 2 /\ r_metrics report = None /\
    r_profit_loss_pct report = NaN.
Proof.
  cbv zeta. split; [vm_compute; reflexivity |]. split; [vm_compute; reflexivity |].
  eexists. split; [vm_compute; reflexivity |]. repeat split.
Qed.

(** ** Look-ahead *)

(** C2 fails on the code.  Two histories agree on the candles 0..100 (101
    candles closing at 100) and differ only in candle 101, which closes at
    99 in one and at 101 in the other.  The RSI of bar 100 is 0/0 = NaN and
    the back-fill of [_prepare_features] replaces it by the RSI of bar 101:
    0 in the first history, 100 in the second.  The signal recorded for bar
    100 is BUY in the first run and SELL in the second. *)
Lemma C2_signal_of_bar_100_reads_candle_101 :
  let run history :=
    fst (run_backtest init history "BTCUSDT" None None
           (Fin 10000) (Fin 0.02) (Fin 0.02) (Fin 0.04)) in
  let signal_of_bar_100 result :=
    match result with
    | Success report => sd_signal <$> (r_signals report !! 0)
    | Error _ => None
    end in
  take 101 (flat_then [99%Q]) = take 101 (flat_then [101%Q]) /\
  signal_of_bar_100 (run (flat_then [99%Q])) = Some "BUY" /\
  signal_of_bar_100 (run (flat_then [101%Q])) = Some "SELL" /\
  (columns (DataFrame_of (flat_then [99%Q])) !! "close"
     ≫= fun close => rsi close !! 100) = Some NaN /\
  (columns (features_of (flat_then [99%Q])) !! "rsi"
     ≫= fun r => r !! 100) = Some (Fin 0) /\
  (columns (features_of (flat_then [101%Q])) !! "rsi"
     ≫= fun r => r !! 100) = Some (Fin 100).
Proof.
  cbv zeta. repeat split; vm_compute; reflexivity.
Qed.

End Driver.

(** * Properties of the indicators and of the signal generator *)

Module Indicators.

Import Backtesting.
Import PositionManager.
Close Scope Q_scope.
Open Scope string_scope.
Open Scope list_scope.
Open Scope nat_scope.

Lemma bfill_lookup s :
  forall i x, s !! i = Some x -> is_nan x = false -> bfill s !! i = Some x.
Proof.
  induction s as [| y t IH]; intros i x Hi Hx; [discriminate |].
  destruct i as [| i]; cbn in *.
  - injection Hi as ->. rewrite Hx. reflexivity.
  - apply IH; assumption.
Qed.

Lemma rsi_column df close :
  columns df !! "close" = Some close ->
  columns (_prepare_features df) !! "rsi" = Some (bfill (rsi close)).
Proof.
  intros H. unfold _prepare_features. rewrite H.
  cbn [fillna_bfill setitem columns]. rewrite lookup_fmap.
  rewrite !lookup_insert_ne by discriminate.
  rewrite lookup_insert_eq. reflexivity.
Qed.

Lemma rsi_lookup close i g l :
  avg_gain close !! i = Some g -> avg_loss close !! i = Some l ->
  rsi close !! i = Some (rsi_of_rs (g / l)%fl).
Proof.
  intros Hg Hl. unfold rsi. rewrite list_lookup_fmap, lookup_zip_with, Hg. cbn.
  rewrite Hl. reflexivity.
Qed.

(** C8, as stated, fails: on 101 candles that all close at 100 the average
    loss of bar 100 is zero and the RSI of that bar is NaN; with one more
    candle closing at 99 the RSI of bar 100 is the back-filled 0. *)
Lemma C8_rsi_of_a_flat_window :
  let rsi_100 history :=
    columns (features_of history) !! "rsi" ≫= fun r => r !! 100 in
  let avg_loss_100 history :=
    columns (DataFrame_of history) !! "close" ≫= fun c => avg_loss c !! 100 in
  avg_loss_100 (flat_then []) = Some (Fin 0) /\
  rsi_100 (flat_then []) = Some NaN /\
  avg_loss_100 (flat_then [99%Q]) = Some (Fin 0) /\
  rsi_100 (flat_then [99%Q]) = Some (Fin 0).
Proof.
  cbv zeta. repeat split; vm_compute; reflexivity.
Qed.

(** The first value of a column that is not NaN; NaN when there is none. *)
Fixpoint next_defined (s : list float) : float :=
  match s with
  | [] => NaN
  | x :: t => if is_nan x then next_defined t else x
  end.

Lemma bfill_head s : hd NaN (bfill s) = next_defined s.
Proof.
  induction s as [| x t IH]; [reflexivity |].
  cbn. rewrite IH. reflexivity.
Qed.

(** After the back-fill a row holds the first value at or below it that is
    not NaN. *)
Lemma bfill_next s :
  forall i, i < length s -> bfill s !! i = Some (next_defined (drop i s)).
Proof.
  induction s as [| x t IH]; intros i Hi; [cbn in Hi; lia |].
  destruct i as [| i].
  - cbn. rewrite bfill_head. reflexivity.
  - cbn in *. apply IH. lia.
Qed.

Lemma next_defined_first s :
  forall j x,
    s !! j = Some x -> is_nan x = false ->
    (forall k, k < j -> s !! k = Some NaN) ->
    next_defined s = x.
Proof.
  induction s as [| y t IH]; intros j x Hj Hx Hnan; [discriminate |].
  destruct j as [| j]; cbn in *.
  - injection Hj as ->. rewrite Hx. reflexivity.
  - specialize (Hnan 0 ltac:(lia)) as H0. injection H0 as ->. cbn.
    apply (IH j); [exact Hj | exact Hx |].
    intros k Hk. apply (Hnan (S k)). lia.
Qed.

Lemma next_defined_none s :
  (forall k y, s !! k = Some y -> y = NaN) -> next_defined s = NaN.
Proof.
  induction s as [| y t IH]; intros H; [reflexivity |].
  rewrite (H 0 y eq_refl). cbn. apply IH.
  intros k z Hk. apply (H (S k)). exact Hk.
Qed.

(** C8 (amended): when the 14-period average loss of a bar is zero and its
    average gain is a positive number, the RSI of that bar is 100.  When
    both averages are zero the RSI computed for the bar is NaN, and the
    back-fill gives the bar the RSI of the first later bar whose RSI is not
    NaN; without such a bar the RSI of the bar stays NaN.  The computation
    is a total function: it never raises. *)
Theorem C8_rsi_without_losses (df : DataFrame) (close : list float) (i : nat)
    (g l : Q) :
  columns df !! "close" = Some close ->
  avg_gain close !! i = Some (Fin g) ->
  avg_loss close !! i = Some (Fin l) ->
  (l == 0)%Q ->
  let filled := columns (_prepare_features df) !! "rsi" ≫= (fun r => r !! i) in
  ((0 < g)%Q -> filled = Some (Fin 100)) /\
  ((g == 0)%Q ->
   rsi close !! i = Some NaN /\
   (forall j x,
      i < j -> rsi close !! j = Some x -> is_nan x = false ->
      (forall k, i < k < j -> rsi close !! k = Some NaN) ->
      filled = Some x) /\
   ((forall k x, i < k -> rsi close !! k = Some x -> x = NaN) ->
    filled = Some NaN)).
Proof.
  intros Hclose Hg Hl Hzero filled. subst filled.
  pose proof (rsi_lookup close i _ _ Hg Hl) as Hrsi.
  apply Qeq_bool_iff in Hzero.
  rewrite (rsi_column df close Hclose). cbn [mbind option_bind].
  split.
  - intros Hpos.
    assert (Hdiv : (Fin g / Fin l)%fl = PInf).
    { unfold fdiv. rewrite Hzero.
      assert (Hg0 : Qeq_bool g 0 = false) by (apply Qeq_bool_false; lra).
      apply Qlt_bool_iff in Hpos. rewrite Hg0, Hpos. reflexivity. }
    rewrite Hdiv in Hrsi. apply bfill_lookup; [exact Hrsi | reflexivity].
  - intros Hg0.
    assert (Hraw : rsi close !! i = Some NaN).
    { rewrite Hrsi. unfold fdiv. rewrite Hzero.
      apply Qeq_bool_iff in Hg0. rewrite Hg0. reflexivity. }
    assert (Hfill : bfill (rsi close) !! i
                    = Some (next_defined (drop (S i) (rsi close)))).
    { rewrite bfill_next by (eapply lookup_lt_Some; exact Hraw).
      rewrite (drop_S _ _ _ Hraw). reflexivity. }
    rewrite Hfill. split; [exact Hraw |]. split.
    + intros j x Hij Hj Hx Hnan. f_equal.
      apply (next_defined_first _ (j - S i)); [| exact Hx |].
      * rewrite lookup_drop. replace (S i + (j - S i)) with j by lia. exact Hj.
      * intros k Hk. rewrite lookup_drop. apply Hnan. lia.
    + intros Hnan. f_equal. apply next_defined_none.
      intros k y Hk. rewrite lookup_drop in Hk. apply (Hnan (S i + k)); [lia | exact Hk].
Qed.

Lemma C8_rsi_without_losses_witness :
  columns (features_of (flat_then [101%Q])) !! "rsi" ≫= (fun r => r !! 101)
    = Some (Fin 100) /\
  columns (features_of (flat_then [99%Q])) !! "rsi" ≫= (fun r => r !! 100)
    = Some (Fin 0).
Proof.
  split.
  - pose (close := imap (fun _ c => Fin c) (replicate 101 100%Q ++ [101%Q])).
    refine (proj1 (C8_rsi_without_losses (DataFrame_of (flat_then [101%Q])) close 101
                     (1 # 14) 0 _ _ _ _) _).
    + vm_compute. reflexivity.
    + vm_compute. reflexivity.
    + vm_compute. reflexivity.
    + reflexivity.
    + reflexivity.
  - pose (close := imap (fun _ c => Fin c) (replicate 101 100%Q ++ [99%Q])).
    refine (proj1 (proj2 (proj2 (C8_rsi_without_losses
                     (DataFrame_of (flat_then [99%Q])) close 100 0 0 _ _ _ _) _))
              101 (Fin 0) _ _ _ _).
    + vm_compute. reflexivity.
    + vm_compute. reflexivity.
    + vm_compute. reflexivity.
    + reflexivity.
    + reflexivity.
    + lia.
    + vm_compute. reflexivity.
    + reflexivity.
    + intros k Hk. lia.
Defined.

End Indicators.

Module Signals.

Import Backtesting.
Import PositionManager.
Close Scope Q_scope.
Open Scope string_scope.
Open Scope list_scope.
Open Scope nat_scope.

(** ** The cascade in the words of the specification *)

(** The indicator values that the four rules read. *)
Record Inputs : Type := {
  in_rsi : float;
  in_sma_20 : float;
  in_sma_50 : float;
  in_close : float;
  in_macd : float;
  in_macd_signal : float;
  in_macd_hist : float;
  in_bb_lower : float;
  in_bb_upper : float
}.

(** What one rule says: BUY, SELL, or nothing when it does not fire. *)
Definition verdict (buy sell : bool) : option string :=
  if buy then Some "BUY" else if sell then Some "SELL" else None.

Definition verdicts (x : Inputs) : list (option string) :=
  [ verdict (in_rsi x <? Fin 30)%fl (in_rsi x >? Fin 70)%fl;
    verdict ((in_sma_20 x >? in_sma_50 x)%fl && (in_close x >? in_sma_20 x)%fl)
            ((in_sma_20 x <? in_sma_50 x)%fl && (in_close x <? in_sma_20 x)%fl);
    verdict ((in_macd x >? in_macd_signal x)%fl && (in_macd_hist x >? Fin 0)%fl)
            ((in_macd x <? in_macd_signal x)%fl && (in_macd_hist x <? Fin 0)%fl);
    verdict (in_close x <? in_bb_lower x)%fl (in_close x >? in_bb_upper x)%fl ].

(** Last matching rule wins; HOLD when none matches. *)
Definition last_match (vs : list (option string)) : string :=
  fold_left (fun signal v => default signal v) vs "HOLD".

(** The row holds the nine values. *)
Definition reads (latest : gmap string float) (x : Inputs) : Prop :=
  latest !! "rsi" = Some (in_rsi x) /\
  latest !! "sma_20" = Some (in_sma_20 x) /\
  latest !! "sma_50" = Some (in_sma_50 x) /\
  latest !! "close" = Some (in_close x) /\
  latest !! "macd" = Some (in_macd x) /\
  latest !! "macd_signal" = Some (in_macd_signal x) /\
  latest !! "macd_hist" = Some (in_macd_hist x) /\
  latest !! "bb_lower" = Some (in_bb_lower x) /\
  latest !! "bb_upper" = Some (in_bb_upper x).

(** The columns that every evaluation of the cascade reads. *)
Definition always_read : list string :=
  ["rsi"; "sma_20"; "sma_50"; "macd"; "macd_signal"; "close"; "bb_lower"].

Definition is_signal (s : string) : Prop := s = "BUY" \/ s = "SELL" \/ s = "HOLD".

(** ** The code against it *)

Lemma if_elif_Some b s prev :
  if_elif (Some b) (Some s) prev = Some (default prev (verdict b s)).
Proof. destruct b, s; reflexivity. Qed.

Lemma and_Some a b : and_ (Some a) (Some b) = Some (a && b).
Proof. destruct a; reflexivity. Qed.

Lemma last_match_none vs :
  Forall (fun v => v = None) vs -> last_match vs = "HOLD".
Proof.
  unfold last_match. generalize "HOLD" as signal.
  induction vs as [| v rest IH]; intros signal Hall; [reflexivity |].
  inversion Hall as [| ? ? Hv Hrest]; subst. cbn. apply IH. exact Hrest.
Qed.

Lemma signal_of_row_reads latest x :
  reads latest x -> signal_of_row latest = Some (last_match (verdicts x)).
Proof.
  intros (H1 & H2 & H3 & H4 & H5 & H6 & H7 & H8 & H9).
  unfold signal_of_row, rsi_rule, sma_rule, macd_rule, bb_rule.
  rewrite H1, H2, H3, H4, H5, H6, H7, H8, H9. cbn [cmp mbind option_bind].
  rewrite !and_Some.
  do 4 (rewrite if_elif_Some; cbn [mbind option_bind]). reflexivity.
Qed.

Lemma if_elif_is_signal c_if c_elif prev s :
  is_signal prev -> if_elif c_if c_elif prev = Some s -> is_signal s.
Proof.
  unfold if_elif, is_signal. intros Hprev.
  destruct c_if as [[|] |]; cbn; [intros [= <-]; auto | | discriminate].
  destruct c_elif as [[|] |]; cbn; [intros [= <-]; auto | intros [= <-]; auto | discriminate].
Qed.

Lemma signal_of_row_is_signal latest s :
  signal_of_row latest = Some s -> is_signal s.
Proof.
  unfold signal_of_row.
  destruct (rsi_rule latest "HOLD") as [s1 |] eqn:H1; [cbn | discriminate].
  destruct (sma_rule latest s1) as [s2 |] eqn:H2; [cbn | discriminate].
  destruct (macd_rule latest s2) as [s3 |] eqn:H3; [cbn | discriminate].
  destruct (bb_rule latest s3) as [s4 |] eqn:H4; [cbn | discriminate].
  intros [= <-].
  eapply if_elif_is_signal; [| exact H4].
  eapply if_elif_is_signal; [| exact H3].
  eapply if_elif_is_signal; [| exact H2].
  eapply if_elif_is_signal; [| exact H1].
  unfold is_signal. auto.
Qed.

Lemma signal_of_row_missing latest c :
  In c always_read -> latest !! c = None -> signal_of_row latest = None.
Proof.
  intros Hin Hc. unfold signal_of_row.
  assert (Hcmp_l : forall op y, cmp op None y = None) by reflexivity.
  assert (Hcmp_r : forall op x, cmp op x None = None) by (intros op [x |]; reflexivity).
  assert (Hrule : forall c_elif prev, if_elif None c_elif prev = None) by reflexivity.
  assert (Hand : forall r, and_ None r = None) by reflexivity.
  cbn in Hin.
  destruct Hin as [<- | [<- | [<- | [<- | [<- | [<- | [<- | []]]]]]]].
  - unfold rsi_rule. rewrite Hc, Hcmp_l, Hrule. reflexivity.
  - destruct (rsi_rule latest "HOLD"); [cbn | reflexivity].
    unfold sma_rule. rewrite Hc, Hcmp_l, Hand, Hrule. reflexivity.
  - destruct (rsi_rule latest "HOLD"); [cbn | reflexivity].
    unfold sma_rule. rewrite Hc, Hcmp_r, Hand, Hrule. reflexivity.
  - destruct (rsi_rule latest "HOLD"); [cbn | reflexivity].
    destruct (sma_rule latest _); [cbn | reflexivity].
    unfold macd_rule. rewrite Hc, Hcmp_l, Hand, Hrule. reflexivity.
  - destruct (rsi_rule latest "HOLD"); [cbn | reflexivity].
    destruct (sma_rule latest _); [cbn | reflexivity].
    unfold macd_rule. rewrite Hc, Hcmp_r, Hand, Hrule. reflexivity.
  - destruct (rsi_rule latest "HOLD"); [cbn | reflexivity].
    destruct (sma_rule latest _); [cbn | reflexivity].
    destruct (macd_rule latest _); [cbn | reflexivity].
    unfold bb_rule. rewrite Hc, Hcmp_l, Hrule. reflexivity.
  - destruct (rsi_rule latest "HOLD"); [cbn | reflexivity].
    destruct (sma_rule latest _); [cbn | reflexivity].
    destruct (macd_rule latest _); [cbn | reflexivity].
    unfold bb_rule. rewrite Hc, Hcmp_r, Hrule. reflexivity.
Qed.

(** A history that closes at 100 for 85 candles and at 110 for the next 16. *)
Definition step_history : list (gmap string Q) :=
  imap kline (replicate 85 100%Q ++ replicate 16 110%Q).

(** C9, as stated, fails: at the last bar of [step_history] the RSI is
    undefined (NaN: fourteen changes of zero, and no later bar to fill it
    from), and yet the output is not HOLD: the SMA rule says BUY, the MACD
    rule says SELL after it, and the signal is SELL. *)
Lemma C9_undefined_input_without_hold :
  let df := iloc_prefix 101 (features_of step_history) in
  (iloc_last df ≫= fun latest => latest !! "rsi") = Some NaN /\
  _generate_signal df "BTCUSDT" = "SELL" /\
  _generate_signal df "BTCUSDT" <> "HOLD".
Proof.
  cbv zeta. split; [vm_compute; reflexivity |].
  assert (H : _generate_signal (iloc_prefix 101 (features_of step_history)) "BTCUSDT"
              = "SELL") by (vm_compute; reflexivity).
  split; [exact H | rewrite H; discriminate].
Qed.

(** C9 (amended): on a row that holds the nine indicator values the output
    is the verdict of the last rule that fires, the rules taken in the order
    RSI, SMA, MACD, Bollinger, and HOLD when no rule fires; a rule whose
    inputs are NaN does not fire; when a column that every evaluation reads
    is missing from the row the output is HOLD; the output is always one of
    BUY, SELL and HOLD, and it is a function of the frame. *)
Theorem C9_signal_cascade (df : DataFrame) (symbol : string)
    (latest : gmap string float) :
  iloc_last df = Some latest ->
  (forall x, reads latest x ->
     _generate_signal df symbol = last_match (verdicts x) /\
     (Forall (fun v => v = None) (verdicts x) -> _generate_signal df symbol = "HOLD") /\
     (in_rsi x = NaN -> verdicts x !! 0 = Some None) /\
     (in_sma_20 x = NaN \/ in_sma_50 x = NaN \/ in_close x = NaN ->
      verdicts x !! 1 = Some None) /\
     (in_macd x = NaN \/ in_macd_signal x = NaN \/ in_macd_hist x = NaN ->
      verdicts x !! 2 = Some None) /\
     (in_close x = NaN \/ in_bb_lower x = NaN /\ in_bb_upper x = NaN ->
      verdicts x !! 3 = Some None)) /\
  (forall c, In c always_read -> latest !! c = None ->
     _generate_signal df symbol = "HOLD") /\
  is_signal (_generate_signal df symbol).
Proof.
  intros Hlast. unfold _generate_signal. rewrite Hlast. cbn [mbind option_bind].
  split; [| split].
  - intros x Hx. rewrite (signal_of_row_reads latest x Hx). cbn [default].
    split; [reflexivity |]. split.
    { intros Hall. apply last_match_none. exact Hall. }
    unfold verdicts. cbn [lookup list_lookup].
    repeat split.
    + intros ->. reflexivity.
    + intros [-> | [-> | ->]]; destruct (in_sma_20 x), (in_sma_50 x);
        try reflexivity; cbn; rewrite ?andb_false_r; reflexivity.
    + intros [-> | [-> | ->]]; destruct (in_macd x), (in_macd_signal x);
        try reflexivity; cbn; rewrite ?andb_false_r; reflexivity.
    + intros [-> | [-> ->]]; [destruct (in_bb_upper x); reflexivity |].
      destruct (in_close x); reflexivity.
  - intros c Hc Hnone. rewrite (signal_of_row_missing latest c Hc Hnone). reflexivity.
  - destruct (signal_of_row latest) as [s |] eqn:Hs; cbn.
    + eapply signal_of_row_is_signal. exact Hs.
    + unfold is_signal. auto.
Qed.

(** A frame of one row: the RSI rule says BUY, the SMA rule is silent, the
    MACD rule says SELL, the Bollinger rule is silent. *)
Definition one_row : DataFrame :=
  {| nrows := 1;
     columns :=
       list_to_map
         [("rsi", [Fin 25]); ("sma_20", [Fin 100]); ("sma_50", [Fin 100]);
          ("close", [Fin 100]); ("macd", [Fin (-2)]); ("macd_signal", [Fin (-1)]);
          ("macd_hist", [Fin (-1)]); ("bb_lower", [Fin 90]); ("bb_upper", [Fin 110])] |}.

Lemma C9_signal_cascade_witness :
  _generate_signal one_row "BTCUSDT" = "SELL" /\
  is_signal (_generate_signal one_row "BTCUSDT").
Proof.
  pose (x := {| in_rsi := Fin 25; in_sma_20 := Fin 100; in_sma_50 := Fin 100;
                in_close := Fin 100; in_macd := Fin (-2); in_macd_signal := Fin (-1);
                in_macd_hist := Fin (-1); in_bb_lower := Fin 90;
                in_bb_upper := Fin 110 |}).
  destruct (C9_signal_cascade one_row "BTCUSDT" _ eq_refl) as (Hreads & _ & Hsig).
  split; [| exact Hsig].
  refine (proj1 (Hreads x _)).
  repeat split; vm_compute; reflexivity.
Defined.

End Signals.

(** * Properties of the realised-P&L accountant *)

Module Accountant.

Import Metrics.
Open Scope string_scope.
Open Scope list_scope.
Open Scope Q_scope.

(** ** FIFO matching in the words of the specification

    A SELL of [qty] at [price] is matched against the oldest unmatched buy
    first; what exceeds all unmatched buys is ignored.  The result is the
    pnl realised by the SELL and the buys still unmatched. *)
Fixpoint fifo (qty price : Q) (queue : list Buy) : Q * list Buy :=
  match queue with
  | [] => (0, [])
  | oldest :: rest =>
      if Qle_bool qty 0 then (0, queue)
      else if Qlt_bool qty (buy_size oldest) then
        ((price - buy_price oldest) * qty,
         {| buy_size := buy_size oldest - qty;
            buy_price := buy_price oldest;
            buy_ts := buy_ts oldest |} :: rest)
      else
        ((price - buy_price oldest) * buy_size oldest
           + fst (fifo (qty - buy_size oldest) price rest),
         snd (fifo (qty - buy_size oldest) price rest))
  end.

Definition total (queue : list Buy) : Q :=
  fold_right (fun b acc => buy_size b + acc) 0 queue.


Definition buy_of (t : Trade) : Buy :=
  {| buy_size := size t; buy_price := price t; buy_ts := ts t |}.

(** ** The loop against it *)

Lemma match_sell_done fuel qty price ts queue pnl holds :
  qty <= 0 -> match_sell fuel qty price ts queue pnl holds = Some (queue, pnl, holds).
Proof.
  intros H. destruct queue as [| buy rest]; [destruct fuel; reflexivity |].
  destruct fuel; cbn; (replace (Qlt_bool 0 qty) with false; [reflexivity |]);
    symmetry; apply Qlt_bool_false; exact H.
Qed.

Lemma fifo_done qty price queue : qty <= 0 -> fifo qty price queue = (0, queue).
Proof.
  intros H. destruct queue as [| buy rest]; [reflexivity |].
  cbn. apply Qle_bool_iff in H. rewrite H. reflexivity.
Qed.

Lemma match_sell_fifo queue :
  forall fuel qty price ts pnl holds,
    (length queue < fuel)%nat ->
    exists pnl' holds',
      match_sell fuel qty price ts queue pnl holds
        = Some (snd (fifo qty price queue), pnl', holds') /\
      pnl' == pnl + fst (fifo qty price queue).
Proof.
  induction queue as [| buy rest IH]; intros fuel qty price ts pnl holds Hfuel.
  - exists pnl, holds. split; [destruct fuel; reflexivity | cbn; ring].
  - destruct (Qlt_le_dec 0 qty) as [Hpos | Hneg].
    2:{ rewrite match_sell_done, fifo_done by assumption.
        exists pnl, holds. split; [reflexivity | cbn; ring]. }
    destruct fuel as [| fuel]; [cbn in Hfuel; lia |].
    cbn [match_sell fifo].
    assert (E1 : Qlt_bool 0 qty = true) by (apply Qlt_bool_iff; exact Hpos).
    assert (E2 : Qle_bool qty 0 = false).
    { destruct (Qle_bool qty 0) eqn:E; [| reflexivity].
      apply Qle_bool_iff in E. lra. }
    rewrite E1, E2. unfold min_.
    destruct (Qlt_bool qty (buy_size buy)) eqn:Hpart.
    + (* the SELL is smaller than the oldest buy *)
      apply Qlt_bool_iff in Hpart.
      assert (E3 : Qlt_bool (buy_size buy) qty = false) by (apply Qlt_bool_false; lra).
      rewrite E3. cbn [buy_size buy_price buy_ts].
      assert (E4 : Qle_bool (buy_size buy - qty) 0 = false).
      { destruct (Qle_bool (buy_size buy - qty) 0) eqn:E; [| reflexivity].
        apply Qle_bool_iff in E. lra. }
      rewrite E4, match_sell_done by lra.
      eexists _, _. split; [reflexivity | cbn; reflexivity].
    + apply Qlt_bool_false in Hpart.
      destruct (Qlt_bool (buy_size buy) qty) eqn:Hfull; cbn [buy_size buy_price buy_ts].
      * (* the oldest buy is used up and the SELL goes on *)
        assert (E4 : Qle_bool (buy_size buy - buy_size buy) 0 = true)
          by (apply Qle_bool_iff; lra).
        rewrite E4.
        destruct (IH fuel (qty - buy_size buy) price ts
                    (pnl + (price - buy_price buy) * buy_size buy)
                    (holds ++ [(ts - buy_ts buy)%Z]))
          as (pnl' & holds' & Hrun & Hpnl); [cbn in Hfuel; lia |].
        exists pnl', holds'. split; [exact Hrun |].
        rewrite Hpnl. cbn. ring.
      * (* the SELL and the oldest buy have the same size *)
        apply Qlt_bool_false in Hfull.
        assert (Heq : qty == buy_size buy) by lra.
        assert (E4 : Qle_bool (buy_size buy - qty) 0 = true)
          by (apply Qle_bool_iff; lra).
        rewrite E4, match_sell_done by lra.
        rewrite (fifo_done (qty - buy_size buy) price rest) by lra.
        eexists _, _. split; [reflexivity |].
        cbn. rewrite Heq. ring.
Qed.



(** ** The pass over the trades *)

Lemma process_is_Some st trade : is_Some (process st trade).
Proof.
  unfold process.
  destruct (String.eqb (upper (side trade)) "BUY"); [eexists; reflexivity |].
  destruct (String.eqb (upper (side trade)) "SELL"); [| eexists; reflexivity].
  match goal with
  | |- context [match_sell (S (length ?q)) ?a ?b ?c ?q ?d ?e] =>
      destruct (match_sell_fifo q (S (length q)) a b c d e) as (p & h & -> & _);
        [lia |]
  end.
  eexists. reflexivity.
Qed.

Lemma process_all_is_Some trades : forall st, is_Some (process_all st trades).
Proof.
  induction trades as [| trade rest IH]; intros st; cbn; [eexists; reflexivity |].
  destruct (process_is_Some st trade) as [st' ->]. apply IH.
Qed.

Lemma lookup_setdefault {V : Type} (k : string) (v : V) (m : gmap string V) :
  setdefault k v m !! k = Some (default v (m !! k)).
Proof.
  unfold setdefault. destruct (m !! k) eqn:E; [exact E |].
  apply lookup_insert_eq.
Qed.

Lemma lookup_setdefault_ne {V : Type} (k k' : string) (v : V) (m : gmap string V) :
  k <> k' -> setdefault k v m !! k' = m !! k'.
Proof.
  intros H. unfold setdefault. destruct (m !! k); [reflexivity |].
  apply lookup_insert_ne. exact H.
Qed.






End Accountant.


(** * Further properties of the replay *)

Module ReplayFacts.

Import Backtesting.
Import PositionManager.
Import Ledger.
Close Scope Q_scope.
Open Scope string_scope.
Open Scope list_scope.
Open Scope nat_scope.

(** An invariant of the bars is an invariant of the replay. *)
Lemma replay_invariant (Q : SignalData -> Prop) (P : Engine -> Prop) :
  (forall self sd, Q sd -> P self ->
     P (_execute_trade (append_signal self sd) sd no_frame)) ->
  forall sds self, Forall Q sds -> P self -> P (replay sds self).
Proof.
  intros Hstep. induction sds as [| sd rest IH]; intros self Hall H; cbn; [exact H |].
  inversion Hall; subst. apply IH; [assumption |]. apply Hstep; assumption.
Qed.

(** The three shapes of one bar. *)
Lemma execute_trade_cases self sd :
  let self' := _execute_trade (append_signal self sd) sd no_frame in
  self' = append_signal self sd \/
  (position self = None /\ sd_signal sd = "BUY" /\
   self' = open_position (append_signal self sd) sd) \/
  (exists pos why, position self = Some pos /\
                   self' = close_position (append_signal self sd) sd pos why).
Proof.
  cbv zeta. unfold _execute_trade. cbn [position append_signal].
  destruct (position self) as [pos |] eqn:Hpos.
  - destruct (sd_price sd <=? stop_loss pos)%fl; [right; right; eauto |].
    destruct (sd_price sd >=? take_profit pos)%fl; [right; right; eauto |].
    destruct (String.eqb (sd_signal sd) "SELL"); [right; right; eauto |].
    left; reflexivity.
  - destruct (String.eqb (sd_signal sd) "BUY") eqn:Hbuy; [| left; reflexivity].
    apply String.eqb_eq in Hbuy. right; left; auto.
Qed.

(** What a successful run returns, with the engine it leaves. *)
Lemma run_backtest_final self klines symbol start_date end_date b r s t
    report self' :
  run_backtest self klines symbol start_date end_date b r s t
    = (Success report, self') ->
  exists sds,
    let final := replay sds (reset self b r s t) in
    self' = _calculate_performance final /\
    r_trades report = trades final /\
    r_signals report = sds /\
    r_final_balance report = current_balance final /\
    r_metrics report = performance_metrics self'.
Proof.
  unfold run_backtest.
  destruct (length _ <? 100); [discriminate |].
  destruct (negb _); [discriminate |].
  destruct (bars _ _ _ _) as [[|] st] eqn:Hbars; [| discriminate].
  destruct (_ && _); [discriminate |].
  intros [= <- <-].
  destruct (bars_replay _ _ _ _ _ _ Hbars) as (sds & -> & _).
  exists sds. cbv zeta. repeat split.
  cbn [r_signals]. change (signals (_calculate_performance ?s)) with (signals s).
  rewrite replay_snoc_signals. reflexivity.
Qed.

(** ** The balance is the one of the last record *)

Definition settled (self : Engine) : Prop :=
  current_balance self =
    default (initial_balance self) (balance_after <$> last (trades self)) /\
  (forall pos, position self = Some pos ->
     exists o, last (trades self) = Some o /\ status o = "OPEN" /\
               quantity o = size pos /\ price o = entry_price pos /\
               balance_before o = current_balance self).

Lemma execute_trade_settled self sd :
  settled self -> settled (_execute_trade (append_signal self sd) sd no_frame).
Proof.
  intros [Hbal Hpos].
  destruct (execute_trade_cases self sd) as [-> | [(Hnone & Hbuy & ->) | (pos & why & Hsome & ->)]].
  - split; [exact Hbal | exact Hpos].
  - split; cbn [current_balance initial_balance trades position open_position
                append_signal].
    + rewrite last_snoc. reflexivity.
    + intros pos [= <-]. rewrite last_snoc. eexists. split; [reflexivity |].
      cbn. auto.
  - split; cbn [current_balance initial_balance trades position close_position
                append_signal].
    + rewrite last_snoc. reflexivity.
    + discriminate.
Qed.

(** The final balance of a run is the balance_after of its last trade
    record -- the initial balance when it made no trade.  A position still
    held after the last candle is not closed: the last record is its
    opening record, and no pnl is booked for it. *)
Theorem final_balance_is_last_booked (self : Engine) (klines : list (gmap string Q))
    (symbol : string) (start_date end_date : option Z)
    (initial_balance risk_per_trade stop_loss_pct take_profit_pct : float)
    (report : Report) (self' : Engine) :
  run_backtest self klines symbol start_date end_date
    initial_balance risk_per_trade stop_loss_pct take_profit_pct
    = (Success report, self') ->
  r_final_balance report =
    default initial_balance (balance_after <$> last (r_trades report)) /\
  (forall pos, position self' = Some pos ->
     exists o, last (r_trades report) = Some o /\ status o = "OPEN" /\
               quantity o = size pos /\ price o = entry_price pos /\
               pnl o = None /\ r_final_balance report = balance_before o).
Proof.
  intros Hrun.
  destruct (run_backtest_final _ _ _ _ _ _ _ _ _ _ _ Hrun)
    as (sds & -> & -> & _ & -> & _).
  set (start := reset self initial_balance risk_per_trade stop_loss_pct take_profit_pct).
  assert (H : settled (replay sds start) /\
              Backtesting.initial_balance (replay sds start) = initial_balance /\
              Forall (fun o => status o = "OPEN" -> pnl o = None) (trades (replay sds start))).
  { apply (replay_invariant (fun _ => True)).
    - intros s sd _ (Hs & Hi & Hl). split; [apply execute_trade_settled, Hs |].
      destruct (execute_trade_cases s sd)
        as [-> | [(Hnone & Hbuy & ->) | (pos & why & Hsome & ->)]]; cbn; (split; [exact Hi |]);
        try exact Hl; apply Forall_app; (split; [exact Hl |]);
        constructor; [reflexivity | constructor | discriminate | constructor].
    - clear. induction sds; constructor; auto.
    - split; [| split; [reflexivity | constructor]].
      split; [reflexivity | discriminate]. }
  destruct H as ([Hbal Hpos] & Hinit & Hlog). rewrite Hinit in Hbal.
  split; [exact Hbal |].
  intros pos Hp. destruct (Hpos pos Hp) as (o & Hlast & Ho & Hq & Hpr & Hb).
  exists o. repeat split; try assumption; [| symmetry; exact Hb].
  rewrite Forall_forall in Hlog. apply Hlog; [| exact Ho].
  apply last_Some in Hlast as [l' ->]. apply elem_of_app. right. constructor.
Qed.

Lemma final_balance_is_last_booked_witness :
  exists report self',
    run_backtest init (flat_then [99; 90]%Q) "BTCUSDT" None None
      (Fin 10000) (Fin 0.02) (Fin 0.02) (Fin 0.04) = (Success report, self') /\
    r_final_balance report =
      default (Fin 10000) (balance_after <$> last (r_trades report)).
Proof.
  destruct (run_backtest init (flat_then [99; 90]%Q) "BTCUSDT" None None
              (Fin 10000) (Fin 0.02) (Fin 0.02) (Fin 0.04))
    as [[msg | report] self'] eqn:Hrun.
  - vm_compute in Hrun. discriminate Hrun.
  - exists report, self'. split; [reflexivity |].
    exact (proj1 (final_balance_is_last_booked _ _ _ _ _ _ _ _ _ _ _ Hrun)).
Defined.


(** ** Every trade belongs to a bar *)

Definition from_bar (sds : list SignalData) (t : TradeRecord) : Prop :=
  exists sd, sd ∈ sds /\
    timestamp t = sd_timestamp sd /\ price t = sd_price sd /\
    symbol t = sd_symbol sd /\
    (status t = "OPEN" -> sd_signal sd = "BUY").

Definition traced (self : Engine) : Prop :=
  length (trades self) <= length (signals self) /\
  Forall (from_bar (signals self)) (trades self).

Lemma from_bar_mono sds sd t : from_bar sds t -> from_bar (sds ++ [sd]) t.
Proof.
  intros (x & Hx & H). exists x. split; [| exact H].
  apply elem_of_app. left. exact Hx.
Qed.

Lemma execute_trade_traced self sd :
  traced self -> traced (_execute_trade (append_signal self sd) sd no_frame).
Proof.
  intros [Hlen Hall].
  assert (Hold : Forall (from_bar (signals self ++ [sd])) (trades self)).
  { eapply Forall_impl; [exact Hall |]. intros t. apply from_bar_mono. }
  assert (Hin : sd ∈ signals self ++ [sd]) by (apply elem_of_app; right; constructor).
  destruct (execute_trade_cases self sd)
    as [-> | [(Hnone & Hbuy & ->) | (pos & why & Hsome & ->)]];
    unfold traced; cbn [trades signals append_signal open_position close_position];
    rewrite ?length_app; cbn [length].
  - split; [lia | exact Hold].
  - split; [lia |]. apply Forall_app. split; [exact Hold |].
    constructor; [| constructor]. exists sd. cbn. auto.
  - split; [lia |]. apply Forall_app. split; [exact Hold |].
    constructor; [| constructor]. exists sd. cbn.
    repeat split; try assumption; try reflexivity. discriminate.
Qed.

(** A run appends at most one trade record per bar, and every record
    carries the timestamp, the price and the symbol of a bar of the signal
    log; an opening record belongs to a bar whose signal is BUY. *)
Theorem trades_come_from_bars (self : Engine) (klines : list (gmap string Q))
    (symbol : string) (start_date end_date : option Z)
    (initial_balance risk_per_trade stop_loss_pct take_profit_pct : float)
    (report : Report) (self' : Engine) :
  run_backtest self klines symbol start_date end_date
    initial_balance risk_per_trade stop_loss_pct take_profit_pct
    = (Success report, self') ->
  length (r_trades report) <= length (r_signals report) /\
  Forall (from_bar (r_signals report)) (r_trades report).
Proof.
  intros Hrun.
  destruct (run_backtest_final _ _ _ _ _ _ _ _ _ _ _ Hrun)
    as (sds & _ & -> & Hsig & _ & _).
  set (start := reset self initial_balance risk_per_trade stop_loss_pct take_profit_pct) in *.
  assert (H : traced (replay sds start)).
  { apply (replay_invariant (fun _ => True)).
    - intros s sd _. apply execute_trade_traced.
    - clear. induction sds; constructor; auto.
    - split; [cbn; lia | constructor]. }
  destruct H as [Hlen Hall].
  rewrite replay_snoc_signals in Hlen, Hall. cbn in Hlen, Hall.
  rewrite Hsig. split; assumption.
Qed.

Lemma trades_come_from_bars_witness :
  exists report self',
    run_backtest init (flat_then [99; 90]%Q) "BTCUSDT" None None
      (Fin 10000) (Fin 0.02) (Fin 0.02) (Fin 0.04) = (Success report, self') /\
    length (r_trades report) <= length (r_signals report).
Proof.
  destruct (run_backtest init (flat_then [99; 90]%Q) "BTCUSDT" None None
              (Fin 10000) (Fin 0.02) (Fin 0.02) (Fin 0.04))
    as [[msg | report] self'] eqn:Hrun.
  - vm_compute in Hrun. discriminate Hrun.
  - exists report, self'. split; [reflexivity |].
    exact (proj1 (trades_come_from_bars _ _ _ _ _ _ _ _ _ _ _ Hrun)).
Defined.

(** ** A run does not see what the engine did before *)





End ReplayFacts.

(** * Properties of the data source and of the feature frame *)

Module HistoryFacts.

Import Backtesting.
Import PositionManager.
Import Indicators.
Close Scope Q_scope.
Open Scope string_scope.
Open Scope list_scope.
Open Scope nat_scope.




(** ** The frame after [_prepare_features] *)

(** Every column has as many values as the frame has rows. *)
Definition well_formed (df : DataFrame) : Prop :=
  forall c col, columns df !! c = Some col -> length col = nrows df.

Definition feature_columns : list string :=
  ["rsi"; "sma_20"; "sma_50"; "sma_200"; "ema_12"; "ema_26"; "macd";
   "macd_signal"; "macd_hist"; "bb_middle"; "bb_std"; "bb_upper"; "bb_lower";
   "momentum"; "volatility"].

Lemma length_diff s : length (diff s) = length s.
Proof.
  destruct s as [| x t]; [reflexivity |].
  cbn [diff length]. rewrite length_zip_with. cbn [length]. lia.
Qed.

Lemma length_rolling w agg s : length (rolling w agg s) = length s.
Proof. unfold rolling. rewrite length_fmap, length_seq. reflexivity. Qed.

Lemma length_ewm_from alpha s : forall w o, length (ewm_from alpha w o s) = length s.
Proof.
  induction s as [| x t IH]; intros w o; cbn; [reflexivity |].
  destruct (is_nan w); cbn; [rewrite IH; reflexivity |].
  destruct (is_nan x); cbn; rewrite IH; reflexivity.
Qed.

Lemma length_ewm_mean span s : length (ewm_mean span s) = length s.
Proof. destruct s; cbn; [reflexivity |]. rewrite length_ewm_from. reflexivity. Qed.

Lemma length_pct_change p s : length (pct_change p s) = length s.
Proof.
  unfold pct_change.
  rewrite length_take, length_app, length_replicate, length_zip_with, length_drop. lia.
Qed.

Lemma length_bfill s : length (bfill s) = length s.
Proof. induction s as [| x t IH]; cbn; [reflexivity |]. rewrite IH. reflexivity. Qed.

Lemma length_rsi close : length (rsi close) = length close.
Proof.
  unfold rsi, avg_gain, avg_loss, gain, loss, where_.
  rewrite length_fmap, length_zip_with, !length_rolling, !length_fmap, !length_diff. lia.
Qed.

Lemma setitem_well_formed c s df :
  well_formed df -> length s = nrows df -> well_formed (setitem c s df).
Proof.
  intros Hwf Hs c' col. cbn. intros H.
  apply lookup_insert_Some in H as [[_ <-] | [_ H]]; [exact Hs | eapply Hwf, H].
Qed.

Lemma setitem_has c s df : columns (setitem c s df) !! c = Some s.
Proof. apply lookup_insert_eq. Qed.

(** [_prepare_features] keeps the rows and the columns of the frame, and on
    a frame with a [close] column adds the fifteen indicator columns, each
    with one value per row. *)
Theorem prepare_features_shape (df : DataFrame) :
  well_formed df ->
  let df' := _prepare_features df in
  nrows df' = nrows df /\
  well_formed df' /\
  (forall c, is_Some (columns df !! c) -> is_Some (columns df' !! c)) /\
  (is_Some (columns df !! "close") ->
   forall c, In c feature_columns -> is_Some (columns df' !! c)).
Proof.
  intros Hwf df'. subst df'.
  split; [apply Driver.prepare_features_nrows |].
  split; [| split; [intros c; apply Driver.prepare_features_keeps |]].
  - unfold _prepare_features.
    destruct (columns df !! "close") as [close |] eqn:Hclose; [| exact Hwf].
    pose proof (Hwf _ _ Hclose) as Hlen.
    intros c col. cbn [fillna_bfill columns nrows]. rewrite lookup_fmap.
    intros H. apply fmap_Some in H as (col0 & H & ->). rewrite length_bfill.
    match type of H with
    | columns ?X !! _ = Some _ => assert (Hwf' : well_formed X)
    end.
    { repeat (apply setitem_well_formed;
              [| rewrite ?length_fmap, ?length_zip_with, ?length_rolling,
                   ?length_ewm_mean, ?length_zip_with, ?length_ewm_mean,
                   ?length_pct_change, ?length_rsi, ?length_rolling;
                 cbn [nrows setitem]; lia]).
      exact Hwf. }
    apply (Hwf' _ _ H).
  - intros [close Hclose] c Hin. unfold _prepare_features. rewrite Hclose.
    cbn [fillna_bfill columns]. rewrite lookup_fmap. apply fmap_is_Some.
    cbn in Hin.
    repeat (destruct Hin as [<- | Hin];
            [repeat (first [ rewrite setitem_has; eexists; reflexivity
                           | apply Driver.setitem_keeps ]) |]).
    contradiction.
Qed.

Lemma prepare_features_shape_witness :
  nrows (features_of (flat_then [99%Q])) = 102 /\
  well_formed (features_of (flat_then [99%Q])).
Proof.
  destruct (prepare_features_shape (DataFrame_of (flat_then [99%Q]))) as (Hn & Hwf & _).
  - intros c col H. rewrite Driver.columns_DataFrame_of in H.
    destruct (decide _); [| discriminate]. injection H as <-.
    reflexivity.
  - split; [exact Hn | exact Hwf].
Defined.

End HistoryFacts.

Module FillFacts.

Import Backtesting.
Import PositionManager.
Import Indicators.
Close Scope Q_scope.
Open Scope string_scope.
Open Scope list_scope.
Open Scope nat_scope.

Lemma next_defined_nan s :
  next_defined s = NaN -> forall k x, s !! k = Some x -> x = NaN.
Proof.
  induction s as [| y t IH]; intros H k x Hk; [discriminate |].
  cbn in H. destruct (is_nan y) eqn:Hy.
  - destruct k as [| k]; cbn in Hk.
    + injection Hk as <-. destruct y; try discriminate. reflexivity.
    + eapply IH; eassumption.
  - subst y. discriminate.
Qed.

(** In a back-filled column a NaN is followed by NaN only. *)
Lemma bfill_no_gap s i j :
  i <= j -> j < length s -> bfill s !! i = Some NaN -> bfill s !! j = Some NaN.
Proof.
  intros Hij Hj Hi.
  rewrite bfill_next in Hi by lia. injection Hi as Hi.
  rewrite bfill_next by lia. f_equal.
  apply next_defined_none. intros k y Hk.
  apply (next_defined_nan _ Hi (j - i + k)).
  rewrite lookup_drop in Hk. rewrite lookup_drop.
  replace (i + (j - i + k)) with (j + k) by lia. exact Hk.
Qed.

(** After [_prepare_features], on a frame with a [close] column, no column
    has a missing value above a number: a NaN is followed by NaN down to the
    last row.  (A missing value is kept only where no later row has a
    value.) *)
Theorem prepared_columns_have_no_gap (df : DataFrame) (c : string)
    (col : list float) (i j : nat) :
  is_Some (columns df !! "close") ->
  columns (_prepare_features df) !! c = Some col ->
  i <= j -> j < length col ->
  col !! i = Some NaN -> col !! j = Some NaN.
Proof.
  intros [close Hclose] Hc Hij Hj Hi.
  unfold _prepare_features in Hc. rewrite Hclose in Hc.
  cbn [fillna_bfill columns] in Hc. rewrite lookup_fmap in Hc.
  apply fmap_Some in Hc as (col0 & _ & ->).
  rewrite HistoryFacts.length_bfill in Hj.
  apply (bfill_no_gap col0 i j); assumption.
Qed.

Lemma prepared_columns_have_no_gap_witness :
  columns (features_of (flat_then [])) !! "rsi" ≫= (fun col => col !! 100) = Some NaN.
Proof.
  destruct (columns (features_of (flat_then [])) !! "rsi") as [col |] eqn:Hcol.
  - cbn [mbind option_bind].
    assert (Hval : col !! 50 = Some NaN /\ 100 < length col).
    { vm_compute in Hcol. injection Hcol as <-. split; [reflexivity | vm_compute; lia]. }
    apply (prepared_columns_have_no_gap (DataFrame_of (flat_then [])) "rsi" col 50 100).
    + vm_compute. eexists. reflexivity.
    + exact Hcol.
    + lia.
    + apply Hval.
    + apply Hval.
  - vm_compute in Hcol. discriminate Hcol.
Defined.

(** A frame without a [close] column comes back from [_prepare_features] as
    it went in (the KeyError is caught); if it has no [rsi] column either,
    the signal on every prefix of it is HOLD (the second KeyError is caught
    too). *)
Theorem no_close_column_means_hold (df : DataFrame) (symbol : string) (n : nat) :
  columns df !! "close" = None ->
  _prepare_features df = df /\
  (columns df !! "rsi" = None ->
   _generate_signal (iloc_prefix n (_prepare_features df)) symbol = "HOLD").
Proof.
  intros Hclose.
  assert (Hsame : _prepare_features df = df).
  { unfold _prepare_features. rewrite Hclose. reflexivity. }
  split; [exact Hsame |]. intros Hrsi. rewrite Hsame.
  unfold _generate_signal.
  destruct (iloc_last (iloc_prefix n df)) as [latest |] eqn:Hlast; [| reflexivity].
  cbn [mbind option_bind].
  rewrite (Signals.signal_of_row_missing latest "rsi"); [reflexivity | cbn; auto |].
  unfold iloc_last in Hlast. destruct (nrows (iloc_prefix n df)); [discriminate |].
  injection Hlast as <-. cbn [iloc_prefix columns].
  rewrite !lookup_fmap, Hrsi. reflexivity.
Qed.

Lemma no_close_column_means_hold_witness :
  _generate_signal
    (iloc_prefix 1 (_prepare_features {| nrows := 1; columns := {[ "open" := [Fin 1] ]} |}))
    "BTCUSDT" = "HOLD".
Proof.
  refine (proj2 (no_close_column_means_hold _ "BTCUSDT" 1 _) _); reflexivity.
Defined.

End FillFacts.

(** * Properties of the performance metrics *)

Module PerformanceFacts.

Import Backtesting.
Import PositionManager.
Close Scope Q_scope.
Open Scope string_scope.
Open Scope list_scope.
Open Scope nat_scope.

Definition closed (log : list TradeRecord) : list TradeRecord :=
  List.filter (fun t => String.eqb (status t) "CLOSED") log.

Lemma gt_le_exclusive x : ((x >? Fin 0) && (x <=? Fin 0))%fl = false.
Proof.
  destruct x as [q | | |]; try reflexivity.
  cbn. unfold Qlt_bool. destruct (Qle_bool q 0); reflexivity.
Qed.

Lemma gt_or_le x : is_nan x = false -> ((x >? Fin 0) || (x <=? Fin 0))%fl = true.
Proof.
  destruct x as [q | | |]; try reflexivity; [| discriminate].
  intros _. cbn. unfold Qlt_bool. destruct (Qle_bool q 0); reflexivity.
Qed.

Lemma filter_split {A} (p q : A -> bool) (l : list A) :
  (forall x, In x l -> p x && q x = false) ->
  length (List.filter p l) + length (List.filter q l) <= length l /\
  ((forall x, In x l -> p x || q x = true) ->
   length (List.filter p l) + length (List.filter q l) = length l).
Proof.
  induction l as [| x l IH]; intros Hex; [cbn; auto |].
  destruct IH as [IH1 IH2]; [intros y Hy; apply Hex; right; exact Hy |].
  pose proof (Hex x (or_introl eq_refl)) as Hx. cbn.
  split.
  - destruct (p x), (q x); cbn in *; try discriminate; lia.
  - intros Hall. specialize (IH2 (fun y Hy => Hall y (or_intror Hy))).
    pose proof (Hall x (or_introl eq_refl)) as Hx'.
    destruct (p x), (q x); cbn in *; try discriminate; lia.
Qed.

Lemma drawdown_nonneg history :
  forall acc, (Fin 0 <=? snd acc)%fl = true ->
              (Fin 0 <=? snd (fold_left drawdown_step history acc))%fl = true.
Proof.
  induction history as [| b rest IH]; intros acc Hacc; [exact Hacc |].
  cbn [fold_left]. apply IH. unfold drawdown_step. cbn [snd].
  set (d := ((fmax (fst acc) b - b) / fmax (fst acc) b)%fl). clearbody d.
  unfold fmax. destruct (fgtb d (snd acc)) eqn:Hgt; [| exact Hacc].
  destruct (snd acc) as [a | | |]; try discriminate;
    destruct d as [d | | |]; try discriminate; try reflexivity.
  cbn in *. apply Qlt_bool_iff in Hgt. apply Qle_bool_iff in Hacc.
  apply Qle_bool_iff. lra.
Qed.

(** When [_calculate_performance] stores metrics: total_trades counts the
    CLOSED records; a record is counted as a winner (pnl > 0) or as a loser
    (pnl <= 0), never as both, and as one of them unless its pnl is NaN;
    with no CLOSED record all metrics are zero; with CLOSED records none of
    which is a loser, profit_factor is +inf; max_drawdown is never negative
    and never NaN. *)
Theorem performance_counts (self : Engine) (m : PerformanceMetrics) :
  performance_metrics (_calculate_performance self) = Some m ->
  total_trades m = length (closed (trades self)) /\
  winning_trades m + losing_trades m <= total_trades m /\
  (Forall (fun t => is_nan (get_pnl t) = false) (closed (trades self)) ->
   winning_trades m + losing_trades m = total_trades m) /\
  (closed (trades self) = [] ->
   m = {| total_trades := 0; winning_trades := 0; losing_trades := 0;
          win_rate := Fin 0; profit_factor := Fin 0; average_profit := Fin 0;
          average_loss := Fin 0; max_drawdown := Fin 0; sharpe_ratio := Fin 0 |}) /\
  (closed (trades self) <> [] ->
   Forall (fun t => (get_pnl t <=? Fin 0)%fl = false) (closed (trades self)) ->
   profit_factor m = PInf /\ losing_trades m = 0 /\ average_loss m = Fin 0) /\
  (Fin 0 <=? max_drawdown m)%fl = true.
Proof.
  unfold _calculate_performance.
  cbv beta iota zeta delta [performance_metrics]. fold (closed (trades self)).
  destruct (closed (trades self)) as [| t0 rest] eqn:Hclosed.
  - intros [= <-]. cbn. repeat split; auto. contradiction.
  - set (log := t0 :: rest) in *.
    destruct (is_zero (initial_balance self)); [discriminate |].
    intros Hm. apply (inj Some) in Hm. subst m.
    cbv beta iota delta [total_trades winning_trades losing_trades win_rate
                         profit_factor average_profit average_loss max_drawdown].
    destruct (filter_split (fun t => get_pnl t >? Fin 0)%fl
                (fun t => get_pnl t <=? Fin 0)%fl log) as [Hle Heq].
    { intros x _. apply gt_le_exclusive. }
    split; [reflexivity |]. split; [exact Hle |]. split.
    { intros Hall. apply Heq. intros x Hx. apply gt_or_le.
      rewrite Forall_forall in Hall. apply Hall, list_elem_of_In, Hx. }
    split; [discriminate |]. split.
    { intros _ Hall.
      assert (Hnone : List.filter (fun t => get_pnl t <=? Fin 0)%fl log = []).
      { clear -Hall. induction log as [| x l IH]; [reflexivity |].
        inversion Hall as [| ? ? Hx Hl]; subst. cbn. rewrite Hx. apply IH, Hl. }
      rewrite Hnone. cbn. auto. }
    apply drawdown_nonneg. reflexivity.
Qed.

Lemma performance_counts_witness :
  exists m,
    performance_metrics
      (snd (run_backtest init (flat_then [99; 90]%Q) "BTCUSDT" None None
              (Fin 10000) (Fin 0.02) (Fin 0.02) (Fin 0.04))) = Some m /\
    total_trades m = 1 /\ (Fin 0 <=? max_drawdown m)%fl = true.
Proof.
  pose (st := snd (bars (features_of (flat_then [99; 90]%Q)) "BTCUSDT"
                     (reset init (Fin 10000) (Fin 0.02) (Fin 0.02) (Fin 0.04))
                     (seq 100 3))).
  destruct (performance_metrics (_calculate_performance st)) as [m |] eqn:Hm.
  - exists m. destruct (performance_counts st m Hm) as (Ht & _ & _ & _ & _ & Hd).
    split; [| split; [| exact Hd]].
    + rewrite <- Hm. vm_compute. reflexivity.
    + rewrite Ht. vm_compute. reflexivity.
  - vm_compute in Hm. discriminate Hm.
Defined.

End PerformanceFacts.

(** * More properties of the realised-P&L accountant *)

Module AccountantFacts.

Import Metrics.
Import Accountant.
Close Scope Q_scope.
Open Scope string_scope.
Open Scope list_scope.
Open Scope nat_scope.

Definition is_buy (t : Trade) : bool := String.eqb (upper (side t)) "BUY".
Definition is_sell (t : Trade) : bool := String.eqb (upper (side t)) "SELL".

(** The hold time of a match. *)
Definition hold_time (sell_ts : Z) (b : Buy) : Z := (sell_ts - buy_ts b)%Z.

(** ** One SELL *)

Lemma match_sell_trace price ts fuel :
  forall qty queue pnl holds queue' pnl' holds',
    match_sell fuel qty price ts queue pnl holds = Some (queue', pnl', holds') ->
    exists n,
      n <= length queue /\
      holds' = holds ++ (hold_time ts <$> take n queue) /\
      (buy_ts <$> queue' = buy_ts <$> drop n queue \/
       (0 < n /\ buy_ts <$> queue' = buy_ts <$> drop (n - 1) queue)) /\
      (n = 0 -> queue' = queue /\ pnl' = pnl).
Proof.
  assert (Hstop : forall (queue : list Buy) (pnl : Q) (holds : list Z),
    exists n, n <= length queue /\
      holds = holds ++ (hold_time ts <$> take n queue) /\
      (buy_ts <$> queue = buy_ts <$> drop n queue \/
       (0 < n /\ buy_ts <$> queue = buy_ts <$> drop (n - 1) queue)) /\
      (n = 0 -> queue = queue /\ pnl = pnl)).
  { intros queue pnl holds. exists 0. cbn. rewrite app_nil_r.
    split; [lia |]. split; [reflexivity |]. split; [left; reflexivity | auto]. }
  induction fuel as [| fuel IH]; intros qty queue pnl holds queue' pnl' holds' H.
  - destruct queue as [| b rest]; cbn in H.
    + injection H as <- <- <-. apply Hstop.
    + destruct (Qlt_bool 0 qty); [discriminate |]. injection H as <- <- <-. apply Hstop.
  - destruct queue as [| b rest]; cbn [match_sell] in H.
    { injection H as <- <- <-. apply Hstop. }
    destruct (Qlt_bool 0 qty) eqn:Hq.
    2:{ injection H as <- <- <-. apply Hstop. }
    unfold min_ in H. destruct (Qlt_bool (buy_size b) qty) eqn:Hm;
      cbn [buy_size buy_price buy_ts] in H.
    + (* the whole buy is matched and removed *)
      assert (E : Qle_bool (buy_size b - buy_size b) 0 = true)
        by (apply Qle_bool_iff; lra).
      rewrite E in H. apply IH in H as (n & Hn & Hholds & Hqueue & _).
      exists (S n). cbn [length take drop fmap list_fmap].
      split; [lia |]. split.
      { rewrite Hholds, <- app_assoc. reflexivity. }
      split; [| discriminate].
      destruct Hqueue as [Hq' | [Hpos Hq']].
      * left. exact Hq'.
      * right. split; [lia |]. rewrite Hq'.
        replace (S n - 1) with (S (n - 1)) by lia. reflexivity.
    + (* the SELL is used up by this buy *)
      rewrite match_sell_done in H by lra. injection H as <- <- <-.
      exists 1. cbn [length take drop fmap list_fmap].
      split; [lia |]. split; [reflexivity |]. split; [| discriminate].
      destruct (Qle_bool (buy_size b - qty) 0).
      * left. rewrite drop_0. reflexivity.
      * right. split; [lia |]. reflexivity.
Qed.

Lemma match_sell_runs fuel qty price ts queue pnl holds :
  length queue < fuel -> is_Some (match_sell fuel qty price ts queue pnl holds).
Proof.
  intros H.
  destruct (match_sell_fifo queue fuel qty price ts pnl holds H) as (p & h & -> & _).
  eexists. reflexivity.
Qed.



(** ** One trade *)

Lemma process_cases st t :
  let sym := upper (symbol t) in
  let realised := setdefault sym 0%Q (realised_pnl st) in
  let positions := setdefault sym [] (positions st) in
  let queue := default [] (Metrics.positions st !! sym) in
  (is_buy t = true /\
   process st t =
     Some {| positions := <[sym := queue ++ [buy_of t]]> positions;
             realised_pnl := realised; hold_times := hold_times st |}) \/
  (is_buy t = false /\ is_sell t = true /\
   exists queue' pnl' holds',
     match_sell (S (length queue)) (size t) (price t) (ts t) queue
       (default 0%Q (realised_pnl st !! sym)) (hold_times st)
       = Some (queue', pnl', holds') /\
     process st t =
       Some {| positions := <[sym := queue']> positions;
               realised_pnl := <[sym := pnl']> realised;
               hold_times := holds' |}) \/
  (is_buy t = false /\ is_sell t = false /\
   process st t =
     Some {| positions := positions; realised_pnl := realised;
             hold_times := hold_times st |}).
Proof.
  intros sym realised positions queue.
  unfold process, is_buy, is_sell. fold sym. fold realised. fold positions.
  assert (Hq : default [] (positions !! sym) = queue).
  { unfold positions. rewrite lookup_setdefault. reflexivity. }
  assert (Hp : default 0%Q (realised !! sym) = default 0%Q (realised_pnl st !! sym)).
  { unfold realised. rewrite lookup_setdefault. reflexivity. }
  rewrite Hq, Hp.
  destruct (String.eqb (upper (side t)) "BUY"); [left; split; reflexivity |].
  right. destruct (String.eqb (upper (side t)) "SELL").
  - left. split; [reflexivity |]. split; [reflexivity |].
    destruct (match_sell_runs (S (length queue)) (size t) (price t) (ts t) queue
                (default 0%Q (realised_pnl st !! sym)) (hold_times st))
      as [[[queue' pnl'] holds'] Hrun]; [lia |].
    exists queue', pnl', holds'. rewrite Hrun. split; reflexivity.
  - right. repeat split; reflexivity.
Qed.

Lemma dom_setdefault {V : Type} (k : string) (v : V) (m : gmap string V) :
  dom (setdefault k v m) = ({[ k ]} ∪ dom m : gset string).
Proof.
  unfold setdefault. destruct (m !! k) eqn:E.
  - apply (elem_of_dom_2 (D := gset string)) in E.
    symmetry. apply subseteq_union_1_L, singleton_subseteq_l, E.
  - rewrite dom_insert_L. reflexivity.
Qed.

Lemma process_dom st t st' :
  process st t = Some st' ->
  dom (realised_pnl st') = ({[ upper (symbol t) ]} ∪ dom (realised_pnl st) : gset string).
Proof.
  intros H.
  destruct (process_cases st t) as [[_ E] | [(_ & _ & q & p & h & _ & E) | (_ & _ & E)]];
    rewrite E in H; injection H as <-; cbn [realised_pnl];
    rewrite ?dom_insert_L, dom_setdefault;
    rewrite ?(assoc_L (∪)), ?union_idemp_L; reflexivity.
Qed.

(** ** The whole pass *)

Definition symbols (trades : list Trade) : gset string :=
  list_to_set ((fun t => upper (symbol t)) <$> trades).

Lemma process_all_dom trades :
  forall st st', process_all st trades = Some st' ->
    dom (realised_pnl st') = (symbols trades ∪ dom (realised_pnl st) : gset string).
Proof.
  induction trades as [| t rest IH]; intros st st' H; cbn in H.
  - injection H as <-. unfold symbols. cbn. rewrite union_empty_l_L. reflexivity.
  - destruct (process st t) as [st1 |] eqn:E; [| discriminate].
    rewrite (IH _ _ H), (process_dom _ _ _ E). unfold symbols. cbn.
    rewrite (assoc_L (∪)). f_equal. apply (comm_L (∪)).
Qed.

Lemma upper_ascii_idemp c : upper_ascii (upper_ascii c) = upper_ascii c.
Proof.
  destruct c as [[] [] [] [] [] [] [] []]; reflexivity.
Qed.

Lemma upper_idemp s : upper (upper s) = upper s.
Proof.
  induction s as [| c r IH]; cbn; [reflexivity |].
  rewrite upper_ascii_idemp, IH. reflexivity.
Qed.

Lemma result_of_start trades st :
  process_all start trades = Some st ->
  _calculate_realised_pnl_and_hold_times trades = Some (realised_pnl st, hold_times st).
Proof.
  intros H. unfold _calculate_realised_pnl_and_hold_times. rewrite H. reflexivity.
Qed.

Lemma process_all_keys trades st :
  process_all start trades = Some st ->
  forall s, is_Some (realised_pnl st !! s) <->
            exists t, t ∈ trades /\ upper (symbol t) = s.
Proof.
  intros Hst s. pose proof (process_all_dom _ _ _ Hst) as Hdom.
  rewrite <- (elem_of_dom (D := gset string)), Hdom.
  cbn [start realised_pnl]. rewrite dom_empty_L, union_empty_r_L.
  unfold symbols. rewrite elem_of_list_to_set, list_elem_of_fmap.
  split; intros (t & H1 & H2); exists t; auto.
Qed.

(** [_calculate_realised_pnl_and_hold_times] returns, and the keys of the
    realised pnl it returns are the symbols of the trades in upper case:
    every trade registers its symbol, whatever its side, and no other key is
    made.  Every key is its own upper case. *)
Theorem realised_pnl_keys (trades : list Trade) :
  exists pnl holds,
    _calculate_realised_pnl_and_hold_times trades = Some (pnl, holds) /\
    (forall s, is_Some (pnl !! s) <->
               exists t, t ∈ trades /\ upper (symbol t) = s) /\
    (forall s, is_Some (pnl !! s) -> upper s = s).
Proof.
  destruct (process_all_is_Some trades start) as [st Hst].
  exists (realised_pnl st), (hold_times st).
  split; [apply result_of_start, Hst |].
  pose proof (process_all_keys _ _ Hst) as Hkeys.
  split; [exact Hkeys |].
  intros s Hs. apply Hkeys in Hs as (t & _ & <-). apply upper_idemp.
Qed.


(** *** Symbols traded on one side only *)

(** What is known of a symbol none of whose trades so far was a SELL, or none
    a BUY. *)
Definition untouched (s : string) (st : State) : Prop :=
  default 0%Q (realised_pnl st !! s) = 0%Q.

Definition unbought (s : string) (st : State) : Prop :=
  default [] (positions st !! s) = [] /\ untouched s st.

Lemma lookup_setdefault_any {V : Type} (k k' : string) (v : V) (m : gmap string V) :
  default v (setdefault k v m !! k') = default v (m !! k').
Proof.
  destruct (decide (k = k')) as [<- | Hne].
  - rewrite lookup_setdefault. reflexivity.
  - rewrite lookup_setdefault_ne by exact Hne. reflexivity.
Qed.

Lemma process_untouched s st t st' :
  (upper (symbol t) = s -> is_sell t = false) ->
  process st t = Some st' -> untouched s st -> untouched s st'.
Proof.
  unfold untouched. intros Hside H Hs.
  destruct (process_cases st t) as [[_ E] | [(_ & Hsell & q & p & h & _ & E) | (_ & _ & E)]];
    rewrite E in H; injection H as <-; cbn [realised_pnl];
    rewrite ?lookup_setdefault_any; try exact Hs.
  destruct (decide (upper (symbol t) = s)) as [Heq | Hne].
  - rewrite (Hside Heq) in Hsell. discriminate.
  - rewrite lookup_insert_ne by exact Hne. rewrite lookup_setdefault_any. exact Hs.
Qed.

Lemma process_unbought s st t st' :
  (upper (symbol t) = s -> is_buy t = false) ->
  process st t = Some st' -> unbought s st -> unbought s st'.
Proof.
  unfold unbought, untouched. intros Hside H [Hq Hs].
  destruct (process_cases st t)
    as [[Hbuy E] | [(_ & _ & q & p & h & Hrun & E) | (_ & _ & E)]];
    rewrite E in H; injection H as <-; cbn [realised_pnl positions].
  - destruct (decide (upper (symbol t) = s)) as [Heq | Hne].
    + rewrite (Hside Heq) in Hbuy. discriminate.
    + rewrite lookup_insert_ne by exact Hne. rewrite !lookup_setdefault_any. auto.
  - destruct (decide (upper (symbol t) = s)) as [Heq | Hne].
    + rewrite Heq in *. rewrite Hq, Hs in Hrun. cbn in Hrun.
      injection Hrun as <- <- <-. rewrite !lookup_insert_eq. auto.
    + rewrite !lookup_insert_ne by exact Hne. rewrite !lookup_setdefault_any. auto.
  - rewrite !lookup_setdefault_any. auto.
Qed.

Lemma process_all_untouched s trades :
  forall st st',
    Forall (fun t => upper (symbol t) = s -> is_sell t = false) trades ->
    process_all st trades = Some st' -> untouched s st -> untouched s st'.
Proof.
  induction trades as [| t rest IH]; intros st st' Hall H Hs; cbn in H.
  - injection H as <-. exact Hs.
  - inversion Hall as [| ? ? Ht Hrest]; subst.
    destruct (process st t) as [st1 |] eqn:E; [| discriminate].
    eapply IH; [exact Hrest | exact H |]. eapply process_untouched; eassumption.
Qed.

Lemma process_all_unbought s trades :
  forall st st',
    Forall (fun t => upper (symbol t) = s -> is_buy t = false) trades ->
    process_all st trades = Some st' -> unbought s st -> unbought s st'.
Proof.
  induction trades as [| t rest IH]; intros st st' Hall H Hs; cbn in H.
  - injection H as <-. exact Hs.
  - inversion Hall as [| ? ? Ht Hrest]; subst.
    destruct (process st t) as [st1 |] eqn:E; [| discriminate].
    eapply IH; [exact Hrest | exact H |]. eapply process_unbought; eassumption.
Qed.

(** A symbol that was only bought, or only sold, has a realised pnl of
    exactly 0: buys alone realise nothing, and a SELL with no earlier BUY of
    its symbol is ignored. *)
Theorem one_sided_symbol_realises_nothing (trades : list Trade) (s : string) :
  (exists t, t ∈ trades /\ upper (symbol t) = s) ->
  Forall (fun t => upper (symbol t) = s -> is_sell t = false) trades \/
  Forall (fun t => upper (symbol t) = s -> is_buy t = false) trades ->
  exists pnl holds,
    _calculate_realised_pnl_and_hold_times trades = Some (pnl, holds) /\
    pnl !! s = Some 0%Q.
Proof.
  intros Hin Hside.
  destruct (process_all_is_Some trades start) as [st Hst].
  exists (realised_pnl st), (hold_times st).
  split; [apply result_of_start, Hst |].
  assert (Hkey : is_Some (realised_pnl st !! s))
    by (apply (process_all_keys _ _ Hst), Hin).
  assert (Hzero : untouched s st).
  { destruct Hside as [Hall | Hall].
    - eapply process_all_untouched; [exact Hall | exact Hst | reflexivity].
    - eapply process_all_unbought; [exact Hall | exact Hst | split; reflexivity]. }
  unfold untouched in Hzero. destruct Hkey as [v Hv]. rewrite Hv in Hzero |- *.
  cbn in Hzero. rewrite Hzero. reflexivity.
Qed.

Lemma one_sided_symbol_realises_nothing_witness :
  exists pnl holds,
    _calculate_realised_pnl_and_hold_times
      [ {| symbol := "ethusdt"; side := "sell"; size := 2; price := 7; ts := 1 |};
        {| symbol := "BTCUSDT"; side := "BUY"; size := 1; price := 5; ts := 2 |};
        {| symbol := "BTCUSDT"; side := "SELL"; size := 1; price := 9; ts := 3 |} ]
      = Some (pnl, holds) /\
    pnl !! "ETHUSDT" = Some 0%Q.
Proof.
  apply one_sided_symbol_realises_nothing.
  - eexists. split; [apply list_elem_of_here | reflexivity].
  - right. repeat constructor; cbn; intros; try reflexivity; discriminate.
Defined.

(** *** Hold times of trades in time order *)

Definition not_after (bound : Z) (st : State) : Prop :=
  (forall s queue, positions st !! s = Some queue ->
                   Forall (fun b => (buy_ts b <= bound)%Z) queue) /\
  Forall (fun h => (0 <= h)%Z) (hold_times st).

Lemma Forall_buy_ts (P : Z -> Prop) (q : list Buy) :
  Forall (fun b => P (buy_ts b)) q <-> Forall P (buy_ts <$> q).
Proof.
  rewrite Forall_fmap. reflexivity.
Qed.

Lemma process_not_after bound st t st' :
  (bound <= ts t)%Z ->
  process st t = Some st' -> not_after bound st -> not_after (ts t) st'.
Proof.
  intros Hle H [Hqueues Hholds].
  assert (Hweak : forall s queue, positions st !! s = Some queue ->
                    Forall (fun b => (buy_ts b <= ts t)%Z) queue).
  { intros s queue Hs. eapply Forall_impl; [apply (Hqueues s queue Hs) |].
    cbn. intros b Hb. lia. }
  assert (Hown : Forall (fun b => (buy_ts b <= ts t)%Z)
                   (default [] (positions st !! upper (symbol t)))).
  { destruct (positions st !! upper (symbol t)) as [q |] eqn:E; cbn.
    - apply (Hweak _ _ E).
    - constructor. }
  assert (Hset : forall s queue,
            setdefault (upper (symbol t)) [] (positions st) !! s = Some queue ->
            Forall (fun b => (buy_ts b <= ts t)%Z) queue).
  { intros s queue Hs. destruct (decide (upper (symbol t) = s)) as [<- | Hne].
    - rewrite lookup_setdefault in Hs. injection Hs as <-. exact Hown.
    - rewrite lookup_setdefault_ne in Hs by exact Hne. apply (Hweak _ _ Hs). }
  destruct (process_cases st t)
    as [[_ E] | [(_ & _ & q & p & h & Hrun & E) | (_ & _ & E)]];
    rewrite E in H; injection H as <-; split; cbn [positions hold_times];
    try exact Hholds; try exact Hset.
  - intros s queue Hs. destruct (decide (upper (symbol t) = s)) as [<- | Hne].
    + rewrite lookup_insert_eq in Hs. injection Hs as <-.
      apply Forall_app. split; [exact Hown |]. repeat constructor. cbn. lia.
    + rewrite lookup_insert_ne in Hs by exact Hne. apply (Hset _ _ Hs).
  - intros s queue Hs. destruct (decide (upper (symbol t) = s)) as [<- | Hne].
    + rewrite lookup_insert_eq in Hs. injection Hs as <-.
      destruct (match_sell_trace _ _ _ _ _ _ _ _ _ _ Hrun) as (n & _ & _ & Hq & _).
      apply (Forall_buy_ts (fun z => (z <= ts t)%Z)).
      apply (Forall_buy_ts (fun z => (z <= ts t)%Z)) in Hown.
      destruct Hq as [-> | [_ ->]]; rewrite fmap_drop; apply Forall_drop, Hown.
    + rewrite lookup_insert_ne in Hs by exact Hne. apply (Hset _ _ Hs).
  - destruct (match_sell_trace _ _ _ _ _ _ _ _ _ _ Hrun) as (n & _ & -> & _ & _).
    apply Forall_app. split; [exact Hholds |].
    rewrite Forall_fmap. apply Forall_take.
    eapply Forall_impl; [exact Hown |]. cbn. unfold hold_time. intros b Hb. lia.
Qed.

Definition in_time_order (trades : list Trade) : Prop :=
  forall i j a b, i <= j -> trades !! i = Some a -> trades !! j = Some b ->
                  (ts a <= ts b)%Z.

Lemma process_all_not_after trades :
  forall bound st st',
    in_time_order trades ->
    Forall (fun t => (bound <= ts t)%Z) trades ->
    process_all st trades = Some st' -> not_after bound st ->
    Forall (fun h => (0 <= h)%Z) (hold_times st').
Proof.
  induction trades as [| t rest IH]; intros bound st st' Hord Hlow H Hst; cbn in H.
  - injection H as <-. apply Hst.
  - destruct (process st t) as [st1 |] eqn:E; [| discriminate].
    inversion Hlow as [| ? ? Ht Hrest]; subst.
    apply (IH (ts t) st1 st').
    + intros i j a b Hij Ha Hb. apply (Hord (S i) (S j)); [lia | exact Ha | exact Hb].
    + apply Forall_forall. intros b Hb.
      apply list_elem_of_lookup in Hb as [j Hj].
      apply (Hord 0 (S j)); [lia | reflexivity | exact Hj].
    + exact H.
    + eapply process_not_after; eassumption.
Qed.

(** For trades in time order (as the caller's [order_by(Trade.ts)] gives
    them) no hold time is negative. *)
Theorem hold_times_are_not_negative (trades : list Trade) :
  in_time_order trades ->
  exists pnl holds,
    _calculate_realised_pnl_and_hold_times trades = Some (pnl, holds) /\
    Forall (fun h => (0 <= h)%Z) holds.
Proof.
  intros Hord.
  destruct (process_all_is_Some trades start) as [st Hst].
  exists (realised_pnl st), (hold_times st).
  split; [apply result_of_start, Hst |].
  destruct trades as [| t rest].
  - cbn in Hst. injection Hst as <-. constructor.
  - apply (process_all_not_after (t :: rest) (ts t) start st Hord).
    + apply Forall_forall. intros b Hb.
      apply list_elem_of_lookup in Hb as [j Hj].
      apply (Hord 0 j); [lia | reflexivity | exact Hj].
    + exact Hst.
    + split; [| constructor]. intros s queue Hs. cbn in Hs.
      rewrite lookup_empty in Hs. discriminate.
Qed.

Lemma hold_times_are_not_negative_witness :
  exists pnl holds,
    _calculate_realised_pnl_and_hold_times
      [ {| symbol := "BTCUSDT"; side := "BUY"; size := 1; price := 5; ts := 2 |};
        {| symbol := "BTCUSDT"; side := "SELL"; size := 1; price := 9; ts := 3 |} ]
      = Some (pnl, holds) /\
    Forall (fun h => (0 <= h)%Z) holds.
Proof.
  apply hold_times_are_not_negative.
  intros [| [| i]] [| [| j]] a b Hij Ha Hb; cbn in Ha, Hb;
    try discriminate; try lia;
    injection Ha as <-; injection Hb as <-; cbn; lia.
Defined.

(** Out of time order a hold time can be negative. *)
Example hold_time_of_a_late_buy :
  _calculate_realised_pnl_and_hold_times
    [ {| symbol := "BTCUSDT"; side := "BUY"; size := 1; price := 5; ts := 9 |};
      {| symbol := "BTCUSDT"; side := "SELL"; size := 1; price := 9; ts := 3 |} ]
  = Some ({[ "BTCUSDT" := 4%Q ]}, [(-6)%Z]).
Proof. vm_compute. reflexivity. Qed.

(** *** How many hold times *)

Definition pending (m : gmap string (list Buy)) : nat :=
  map_fold (fun _ queue n => length queue + n) 0 m.

Lemma pending_insert m k queue :
  pending (<[k := queue]> m) + length (default [] (m !! k)) = pending m + length queue.
Proof.
  unfold pending.
  assert (Hcomm : forall (m' : gmap string (list Buy)) (j1 j2 : string)
                    (z1 z2 : list Buy) (y : nat),
            j1 <> j2 -> m' !! j1 = Some z1 -> m' !! j2 = Some z2 ->
            length z1 + (length z2 + y) = length z2 + (length z1 + y)).
  { intros. lia. }
  destruct (m !! k) as [old |] eqn:E; cbn [from_option id].
  - rewrite <- insert_delete_eq.
    rewrite (map_fold_insert_L _ _ _ _ _ (Hcomm _)) by apply lookup_delete_eq.
    rewrite (map_fold_delete_L _ _ k old m (Hcomm _) E). lia.
  - rewrite (map_fold_insert_L _ _ _ _ _ (Hcomm _) E). cbn. lia.
Qed.

Lemma pending_setdefault m k : pending (setdefault k [] m) = pending m.
Proof.
  unfold setdefault. destruct (m !! k) eqn:E; [reflexivity |].
  pose proof (pending_insert m k []) as H. rewrite E in H. cbn in H. lia.
Qed.

Definition matters (t : Trade) : bool := is_buy t || is_sell t.

Lemma process_pending st t st' :
  process st t = Some st' ->
  length (hold_times st') + pending (positions st')
    <= length (hold_times st) + pending (positions st) + (if matters t then 1 else 0).
Proof.
  intros H. unfold matters.
  pose proof (pending_setdefault (positions st) (upper (symbol t))) as Hset.
  destruct (process_cases st t)
    as [[Hbuy E] | [(Hbuy & Hsell & q & p & h & Hrun & E) | (Hbuy & Hsell & E)]];
    rewrite E in H; injection H as <-; cbn [positions hold_times];
    rewrite Hbuy; try rewrite Hsell; cbn [orb].
  - match goal with |- context [pending (<[?k := ?v]> ?m)] =>
      pose proof (pending_insert m k v) as Hins end.
    rewrite lookup_setdefault in Hins. cbn [from_option id] in Hins.
    rewrite length_app in Hins. cbn [length] in Hins. lia.
  - match goal with |- context [pending (<[?k := ?v]> ?m)] =>
      pose proof (pending_insert m k v) as Hins end.
    rewrite lookup_setdefault in Hins. cbn [from_option id] in Hins.
    destruct (match_sell_trace _ _ _ _ _ _ _ _ _ _ Hrun) as (n & Hn & -> & Hq & _).
    rewrite length_app, length_fmap, length_take.
    assert (Hlen : length q + n <= length (default [] (positions st !! upper (symbol t))) + 1).
    { destruct Hq as [Hq | [Hpos Hq]]; apply (f_equal length) in Hq;
        rewrite !length_fmap, length_drop in Hq; lia. }
    lia.
  - lia.
Qed.

Lemma process_all_pending trades :
  forall st st', process_all st trades = Some st' ->
    length (hold_times st') + pending (positions st')
      <= length (hold_times st) + pending (positions st)
         + length (List.filter matters trades).
Proof.
  induction trades as [| t rest IH]; intros st st' H; cbn in H.
  - injection H as <-. cbn. lia.
  - destruct (process st t) as [st1 |] eqn:E; [| discriminate].
    pose proof (IH _ _ H). pose proof (process_pending _ _ _ E).
    cbn [List.filter]. destruct (matters t); cbn [length]; lia.
Qed.

(** There are at most as many hold times as there are BUY and SELL trades
    together: every turn of the matching loop either takes a buy off its
    queue or is the last turn for its SELL. *)
Theorem hold_times_are_bounded (trades : list Trade) :
  exists pnl holds,
    _calculate_realised_pnl_and_hold_times trades = Some (pnl, holds) /\
    length holds <= length (List.filter matters trades).
Proof.
  destruct (process_all_is_Some trades start) as [st Hst].
  exists (realised_pnl st), (hold_times st).
  split; [apply result_of_start, Hst |].
  pose proof (process_all_pending _ _ _ Hst) as H.
  cbn [start hold_times positions length] in H.
  unfold pending at 2 in H. rewrite map_fold_empty in H. lia.
Qed.

(** *** Letter case *)

Definition normalise (t : Trade) : Trade :=
  {| symbol := upper (symbol t); side := upper (side t);
     size := size t; price := price t; ts := ts t |}.

Lemma process_normalise st t : process st (normalise t) = process st t.
Proof.
  unfold process, normalise. cbn [symbol side size price ts].
  rewrite !upper_idemp. reflexivity.
Qed.

Lemma process_all_normalise trades :
  forall st, process_all st (normalise <$> trades) = process_all st trades.
Proof.
  induction trades as [| t rest IH]; intros st; cbn; [reflexivity |].
  rewrite process_normalise. destruct (process st t); [apply IH | reflexivity].
Qed.

(** The letter case of symbols and sides does not matter: writing them all
    in upper case gives the same realised pnl and the same hold times. *)
Theorem letter_case_is_ignored (trades : list Trade) :
  _calculate_realised_pnl_and_hold_times (normalise <$> trades)
  = _calculate_realised_pnl_and_hold_times trades.
Proof.
  unfold _calculate_realised_pnl_and_hold_times.
  rewrite process_all_normalise. reflexivity.
Qed.

End AccountantFacts.

(** * The metrics endpoint

    The part of [get_trade_metrics] after the query: [all_trades] is what
    the query returned.  A [KeyError] in it would be turned into the
    HTTP 500 answer by the handler at the end. *)

Module MetricsReport.

Import Metrics.
Open Scope string_scope.
Open Scope list_scope.

(** A value of [result]: the dict that [setdefault] makes, with the key
    [average_hold_seconds] that the last loop adds. *)
Record Entry : Type := {
  e_realised_pnl : Q;
  e_buy_volume : Q;
  e_sell_volume : Q;
  e_trades_count : nat;
  e_average_hold_seconds : option Q
}.

Definition fresh : Entry :=
  {| e_realised_pnl := 0; e_buy_volume := 0; e_sell_volume := 0;
     e_trades_count := 0; e_average_hold_seconds := None |}.

(** The body of [for trade in all_trades]. *)
Definition tally (result : gmap string Entry) (trade : Trade) : gmap string Entry :=
  let sym := upper (symbol trade) in
  let result := setdefault sym fresh result in
  let e := default fresh (result !! sym) in
  let e := {| e_realised_pnl := e_realised_pnl e; e_buy_volume := e_buy_volume e;
              e_sell_volume := e_sell_volume e;
              e_trades_count := e_trades_count e + 1;
              e_average_hold_seconds := e_average_hold_seconds e |} in
  let e :=
    if String.eqb (upper (side trade)) "BUY" then
      {| e_realised_pnl := e_realised_pnl e;
         e_buy_volume := e_buy_volume e + size trade;
         e_sell_volume := e_sell_volume e; e_trades_count := e_trades_count e;
         e_average_hold_seconds := e_average_hold_seconds e |}
    else if String.eqb (upper (side trade)) "SELL" then
      {| e_realised_pnl := e_realised_pnl e; e_buy_volume := e_buy_volume e;
         e_sell_volume := e_sell_volume e + size trade;
         e_trades_count := e_trades_count e;
         e_average_hold_seconds := e_average_hold_seconds e |}
    else e in
  <[sym := e]> result.

Definition set_realised_pnl (pnl : Q) (e : Entry) : Entry :=
  {| e_realised_pnl := pnl; e_buy_volume := e_buy_volume e;
     e_sell_volume := e_sell_volume e; e_trades_count := e_trades_count e;
     e_average_hold_seconds := e_average_hold_seconds e |}.

(** [for sym, pnl in realised_pnl_map.items(): result[sym]["realised_pnl"] = pnl];
    [None] is the KeyError of [result[sym]]. *)
Fixpoint attach (items : list (string * Q)) (result : gmap string Entry)
  : option (gmap string Entry) :=
  match items with
  | [] => Some result
  | (sym, pnl) :: rest =>
      match result !! sym with
      | Some e => attach rest (<[sym := set_realised_pnl pnl e]> result)
      | None => None
      end
  end.

Definition average_hold_seconds (hold_times : list Z) : Q :=
  match hold_times with
  | [] => 0
  | _ => (inject_Z (fold_left Z.add hold_times 0%Z)
          / inject_Z (Z.of_nat (length hold_times))) / 1000
  end.

Definition set_average (average : Q) (e : Entry) : Entry :=
  {| e_realised_pnl := e_realised_pnl e; e_buy_volume := e_buy_volume e;
     e_sell_volume := e_sell_volume e; e_trades_count := e_trades_count e;
     e_average_hold_seconds := Some average |}.

Inductive Response : Type :=
  | Ok (total_realised_pnl : Q) (symbols : gmap string Entry)
  | Http500.

(** [realised_pnl_map.items()] has every key once, so the order in which
    the pairs are taken does not change [result]. *)
Definition get_trade_metrics (all_trades : list Trade) : option Response :=
  match all_trades with
  | [] => Some (Ok 0 ∅)
  | _ =>
      '(realised_pnl_map, hold_times) ←
        _calculate_realised_pnl_and_hold_times all_trades;
      let result := fold_left tally all_trades ∅ in
      match attach (map_to_list realised_pnl_map) result with
      | None => Some Http500
      | Some result =>
          let average := average_hold_seconds hold_times in
          let result := set_average average <$> result in
          let total_realised :=
            fold_left Qplus (snd <$> map_to_list realised_pnl_map) 0 in
          Some (Ok total_realised result)
      end
  end.

End MetricsReport.

(** * Properties of the metrics endpoint *)

Module MetricsReportFacts.

Import Metrics.
Import Accountant.
Import MetricsReport.
Close Scope Q_scope.
Open Scope string_scope.
Open Scope list_scope.
Open Scope nat_scope.

(** The number of trades of a symbol. *)
Definition trades_of (s : string) (trades : list Trade) : nat :=
  length (List.filter (fun t => String.eqb (upper (symbol t)) s) trades).

(** What the first loop has made of the trades [done]. *)
Definition tallied (done : list Trade) (result : gmap string Entry) : Prop :=
  forall s,
    match result !! s with
    | Some e => e_trades_count e = trades_of s done /\ 0 < trades_of s done /\
                e_average_hold_seconds e = None
    | None => trades_of s done = 0
    end.

Lemma trades_of_snoc s done t :
  trades_of s (done ++ [t])
  = trades_of s done + (if String.eqb (upper (symbol t)) s then 1 else 0).
Proof.
  unfold trades_of. rewrite List.filter_app, length_app. cbn.
  destruct (String.eqb (upper (symbol t)) s); reflexivity.
Qed.

Lemma tally_tallied done result t :
  tallied done result -> tallied (done ++ [t]) (tally result t).
Proof.
  intros H s. unfold tally. rewrite trades_of_snoc.
  set (sym := upper (symbol t)).
  destruct (String.eqb_spec sym s) as [<- | Hne].
  - rewrite lookup_insert_eq, lookup_setdefault. specialize (H sym).
    destruct (result !! sym) as [e |]; cbn [from_option id].
    + destruct H as (H1 & H2 & H3).
      destruct (String.eqb _ "BUY"); [| destruct (String.eqb _ "SELL")];
        cbn; repeat split; try lia; exact H3.
    + destruct (String.eqb _ "BUY"); [| destruct (String.eqb _ "SELL")];
        cbn; repeat split; lia.
  - rewrite lookup_insert_ne, lookup_setdefault_ne by exact Hne.
    specialize (H s). destruct (result !! s); [| lia].
    destruct H as (H1 & H2 & H3). repeat split; try lia; exact H3.
Qed.

Lemma fold_tally_tallied rest :
  forall done result,
    tallied done result -> tallied (done ++ rest) (fold_left tally rest result).
Proof.
  induction rest as [| t rest IH]; intros done result H; cbn.
  - rewrite app_nil_r. exact H.
  - replace (done ++ t :: rest) with ((done ++ [t]) ++ rest)
      by (rewrite <- app_assoc; reflexivity).
    apply IH, tally_tallied, H.
Qed.

Lemma trades_of_pos s trades :
  0 < trades_of s trades <-> exists t, t ∈ trades /\ upper (symbol t) = s.
Proof.
  unfold trades_of. induction trades as [| t rest IH]; cbn.
  - split; [lia |]. intros (t & Ht & _). inversion Ht.
  - destruct (String.eqb_spec (upper (symbol t)) s) as [Heq | Hne]; cbn.
    + split; [| lia]. intros _. exists t. split; [apply list_elem_of_here | exact Heq].
    + rewrite IH. split; intros (t' & Hin & Heq).
      * exists t'. split; [apply list_elem_of_further, Hin | exact Heq].
      * apply elem_of_cons in Hin as [-> | Hin]; [contradiction |].
        exists t'. auto.
Qed.

Lemma set_realised_pnl_same e : set_realised_pnl (e_realised_pnl e) e = e.
Proof. destruct e. reflexivity. Qed.

Lemma attach_spec items :
  forall result : gmap string Entry,
    NoDup items.*1 ->
    (forall k v, (k, v) ∈ items -> is_Some (result !! k)) ->
    exists result',
      attach items result = Some result' /\
      forall s,
        result' !! s
        = (fun e => set_realised_pnl
                      (default (e_realised_pnl e)
                         ((list_to_map items : gmap string Q) !! s)) e)
            <$> result !! s.
Proof.
  induction items as [| [k v] rest IH]; intros result Hnd Hkeys.
  - exists result. split; [reflexivity |]. intros s. cbn. rewrite lookup_empty. cbn.
    destruct (result !! s) as [e |]; cbn; [| reflexivity].
    rewrite set_realised_pnl_same. reflexivity.
  - cbn [attach]. destruct (Hkeys k v) as [e He]; [apply list_elem_of_here |].
    rewrite He. cbn in Hnd. apply NoDup_cons in Hnd as [Hk Hnd].
    destruct (IH (<[k := set_realised_pnl v e]> result) Hnd) as (result' & Hrun & Hspec).
    { intros k' v' Hin. destruct (decide (k = k')) as [<- | Hne].
      - rewrite lookup_insert_eq. eexists. reflexivity.
      - rewrite lookup_insert_ne by exact Hne.
        apply (Hkeys k' v'), list_elem_of_further, Hin. }
    exists result'. split; [exact Hrun |]. intros s. rewrite Hspec. cbn [list_to_map foldr].
    destruct (decide (k = s)) as [<- | Hne].
    + rewrite !lookup_insert_eq, He. cbn.
      rewrite (not_elem_of_list_to_map_1 (M := gmap string)) by exact Hk. reflexivity.
    + rewrite !lookup_insert_ne by exact Hne. reflexivity.
Qed.

(** [get_trade_metrics] never ends in the HTTP 500 answer and answers with
    one entry for each symbol of the trades (in upper case), no other: the
    pnl attached to the entry is the one [_calculate_realised_pnl_and_hold_times]
    gives for the symbol, its [trades_count] is the number of trades of the
    symbol, whatever their side, and all entries carry the same average hold
    time, the one of all symbols together. *)
Theorem report_has_an_entry_for_each_symbol (all_trades : list Trade) :
  exists pnl holds total entries,
    _calculate_realised_pnl_and_hold_times all_trades = Some (pnl, holds) /\
    get_trade_metrics all_trades = Some (Ok total entries) /\
    forall s,
      match entries !! s with
      | Some e =>
          pnl !! s = Some (e_realised_pnl e) /\
          e_trades_count e = trades_of s all_trades /\
          0 < trades_of s all_trades /\
          e_average_hold_seconds e = Some (average_hold_seconds holds)
      | None => pnl !! s = None /\ trades_of s all_trades = 0
      end.
Proof.
  destruct (process_all_is_Some all_trades start) as [st Hst].
  pose proof (AccountantFacts.result_of_start _ _ Hst) as Hrun.
  pose proof (AccountantFacts.process_all_keys _ _ Hst) as Hkeys.
  set (pnl := realised_pnl st) in *. set (holds := hold_times st) in *.
  destruct all_trades as [| t0 rest].
  { exists pnl, holds, 0%Q, ∅. split; [exact Hrun |]. split; [reflexivity |].
    intros s. rewrite lookup_empty. cbn in Hrun. injection Hrun as <- <-.
    split; [apply lookup_empty | reflexivity]. }
  set (trades := t0 :: rest) in *.
  assert (Htally : tallied trades (fold_left tally trades ∅)).
  { apply (fold_tally_tallied trades []). intros s. rewrite lookup_empty. reflexivity. }
  destruct (attach_spec (map_to_list pnl) (fold_left tally trades ∅))
    as (result & Hattach & Hspec).
  { apply NoDup_fst_map_to_list. }
  { intros k v Hin. apply elem_of_map_to_list in Hin.
    pose proof (proj1 (Hkeys k) (ex_intro _ v Hin)) as Hex.
    apply trades_of_pos in Hex. specialize (Htally k).
    destruct (fold_left tally trades ∅ !! k); [eexists; reflexivity | lia]. }
  exists pnl, holds,
    (fold_left Qplus (snd <$> map_to_list pnl) 0%Q),
    (set_average (average_hold_seconds holds) <$> result).
  split; [exact Hrun |]. split.
  { unfold get_trade_metrics. fold trades. unfold trades at 1.
    rewrite Hrun. cbn [mbind option_bind]. rewrite Hattach. reflexivity. }
  intros s. rewrite lookup_fmap, Hspec, list_to_map_to_list.
  specialize (Htally s).
  destruct (fold_left tally trades ∅ !! s) as [e |]; cbn.
  - destruct Htally as (H1 & H2 & _).
    destruct (proj2 (Hkeys s) (proj1 (trades_of_pos s trades) H2)) as [v Hv].
    rewrite Hv. cbn. auto.
  - split; [| exact Htally].
    destruct (pnl !! s) as [v |] eqn:Hv; [| reflexivity].
    pose proof (proj1 (Hkeys s) (ex_intro _ v Hv)) as Hex.
    apply trades_of_pos in Hex. lia.
Qed.

End MetricsReportFacts.
